(** * FastPI aggregation core: market snapshot and news feeds

    A shallow embedding of [fastpi/services/market.py],
    [fastpi/services/news.py] and the two model files they build,
    followed by the properties of the aggregation logic.

    Conventions.
    - A Python [int] is a [Z]; a Python [float] is an IEEE-754 binary64 value
      ([spec_float] with 53 bits of precision and exponent bound 1024).
    - A Python [str] is a [string]; one character stands for one code point.
    - A decoded JSON document is a [json] tree; a [dict] is an association
      list in insertion order.
    - Code that may raise returns a [result]; [asyncio.gather] with
      [return_exceptions=True] hands every task's [result] back in task order.
    - Library functions whose full behaviour lives outside the repository
      ([str.upper], [float] on a [str], [urljoin], the URL validation of
      pydantic, the date parser) are the fields of the class [Runtime]. *)

From Stdlib Require Import ZArith List String Ascii Bool Lia.
From Stdlib Require Import Permutation Sorted.
From Stdlib Require Import SpecFloat.
Import ListNotations.

#[local] Set Warnings "-register-all".
Local Open Scope string_scope.
Local Open Scope list_scope.
Local Open Scope Z_scope.

(* ===================================================================== *)
(** * The fragment of Python the services rely on *)
(* ===================================================================== *)

Module Py.

(** ** Exceptions and results *)

Inductive exn_class :=
| HTTPError          (* httpx transport failure or raise_for_status *)
| JSONDecodeError
| ValueError
| TypeError
| AttributeError
| KeyError
| IndexError
| OverflowError
| ValidationError.   (* pydantic *)

Definition exn_class_eqb (a b : exn_class) : bool :=
  match a, b with
  | HTTPError, HTTPError | JSONDecodeError, JSONDecodeError
  | ValueError, ValueError | TypeError, TypeError
  | AttributeError, AttributeError | KeyError, KeyError
  | IndexError, IndexError
  | OverflowError, OverflowError | ValidationError, ValidationError => true
  | _, _ => false
  end.

(** An exception object: its class and what [str(e)] gives. *)
Record exn := mk_exn { exn_cls : exn_class; exn_msg : string }.

Definition str_exn (e : exn) : string := exn_msg e.

Inductive result (A : Type) :=
| Ok (a : A)
| Raise (e : exn).
Arguments Ok {A} a.
Arguments Raise {A} e.

Definition bind {A B} (r : result A) (k : A -> result B) : result B :=
  match r with
  | Ok a => k a
  | Raise e => Raise e
  end.

Definition raise {A} (c : exn_class) (msg : string) : result A :=
  Raise (mk_exn c msg).

(** [try: body  except (c1, ..., cn): handler] *)
Definition try_except {A} (body : result A) (caught : list exn_class)
           (handler : exn -> result A) : result A :=
  match body with
  | Ok a => Ok a
  | Raise e =>
      if existsb (exn_class_eqb (exn_cls e)) caught then handler e
      else Raise e
  end.

Definition is_ok {A} (r : result A) : bool :=
  match r with Ok _ => true | Raise _ => false end.

(** ** Floats: IEEE-754 binary64 *)

Definition prec : Z := 53.
Definition emax : Z := 1024.

Definition float := spec_float.

Definition fmul : float -> float -> float := SFmul prec emax.
Definition fadd : float -> float -> float := SFadd prec emax.
Definition fdiv : float -> float -> float := SFdiv prec emax.
Definition flt : float -> float -> bool := SFltb.

(** The binary64 value nearest to the integer [n] (ties to even); an
    infinity when [n] is out of range. *)
Definition nearest_float (n : Z) : float := binary_normalize prec emax n 0 false.

(** [float(n)] for an [int]: CPython rounds to nearest-even and raises
    [OverflowError] when the result does not fit a double. *)
Definition float_of_int (n : Z) : result float :=
  match nearest_float n with
  | S754_infinity _ => raise OverflowError "int too large to convert to float"
  | x => Ok x
  end.

(** A small [int] operand promoted for mixed arithmetic ([pct * 100],
    [total / 2]). *)
Definition float_lit (n : Z) : float := nearest_float n.

Definition float_is_zero (x : float) : bool :=
  match x with S754_zero _ => true | _ => false end.

(** ** Decoded JSON values *)

Inductive json :=
| JNull
| JBool (b : bool)
| JInt (n : Z)
| JFloat (x : float)
| JStr (s : string)
| JList (l : list json)
| JDict (d : list (string * json)).

Definition dict := list (string * json).

Fixpoint dict_lookup (d : dict) (k : string) : option json :=
  match d with
  | [] => None
  | (k', v) :: rest => if String.eqb k k' then Some v else dict_lookup rest k
  end.

(** Truth value of an object ([if x], [not x], [x or y]). *)
Definition truthy (v : json) : bool :=
  match v with
  | JNull => false
  | JBool b => b
  | JInt n => negb (n =? 0)
  | JFloat x => negb (float_is_zero x)
  | JStr s => negb (String.eqb s "")
  | JList l => match l with [] => false | _ => true end
  | JDict d => match d with [] => false | _ => true end
  end.

Definition type_name (v : json) : string :=
  match v with
  | JNull => "NoneType"
  | JBool _ => "bool"
  | JInt _ => "int"
  | JFloat _ => "float"
  | JStr _ => "str"
  | JList _ => "list"
  | JDict _ => "dict"
  end.

Definition no_attribute {A} (v : json) (attr : string) : result A :=
  raise AttributeError
        ("'" ++ type_name v ++ "' object has no attribute '" ++ attr ++ "'")%string.

(** [v.get(key, default)]: only a [dict] has the method. *)
Definition py_get (v : json) (key : string) (default : json) : result json :=
  match v with
  | JDict d =>
      Ok (match dict_lookup d key with Some x => x | None => default end)
  | _ => no_attribute v "get"
  end.

(** [v[0]], reached only for a truthy [v]. *)
Definition py_item0 (v : json) : result json :=
  match v with
  | JList (x :: _) => Ok x
  | JList [] => raise IndexError "list index out of range"
  | JStr (String c _) => Ok (JStr (String c ""))
  | JStr EmptyString => raise IndexError "string index out of range"
  | JDict _ => raise KeyError "0"
  | _ => raise TypeError ("'" ++ type_name v ++ "' object is not subscriptable")%string
  end.

Fixpoint chars_of (s : string) : list json :=
  match s with
  | EmptyString => []
  | String c rest => JStr (String c "") :: chars_of rest
  end.

(** The elements a [for] loop visits. *)
Definition py_iter (v : json) : result (list json) :=
  match v with
  | JList l => Ok l
  | JDict d => Ok (map (fun kv => JStr (fst kv)) d)
  | JStr s => Ok (chars_of s)
  | _ => raise TypeError ("'" ++ type_name v ++ "' object is not iterable")%string
  end.

Fixpoint is_substring (needle hay : string) : bool :=
  if String.prefix needle hay then true
  else match hay with
       | EmptyString => false
       | String _ rest => is_substring needle rest
       end.

(** [v == k] for a [str] constant [k] *)
Definition json_is_str (k : string) (v : json) : bool :=
  match v with JStr s => String.eqb s k | _ => false end.

(** [v is None] *)
Definition is_none (v : json) : bool :=
  match v with JNull => true | _ => false end.

(** [key in v] for a [str] key. *)
Definition py_contains (key : string) (v : json) : result bool :=
  match v with
  | JDict d => Ok (match dict_lookup d key with Some _ => true | None => false end)
  | JList l => Ok (existsb (json_is_str key) l)
  | JStr s => Ok (is_substring key s)
  | _ => raise TypeError ("argument of type '" ++ type_name v ++ "' is not iterable")%string
  end.

(** [s.startswith(p)] *)
Definition startswith (s p : string) : bool := String.prefix p s.

(** [len(s)] *)
Definition len_str (s : string) : Z := Z.of_nat (String.length s).

(** [len(l)] *)
Definition len {A} (l : list A) : Z := Z.of_nat (List.length l).

(** [l[:n]]; a negative [n] counts from the end. *)
Definition slice_to {A} (l : list A) (n : Z) : list A :=
  if 0 <=? n then firstn (Z.to_nat n) l
  else firstn (Z.to_nat (len l + n)) l.

(** [asyncio.gather] over the tasks with [return_exceptions=True]: every task
    runs to its end, and the outcomes come back in the order of [tasks],
    an exception as a value in its slot. *)
Definition gather {A} (tasks : list (result A)) : list (result A) := tasks.

End Py.

Export Py.

Declare Scope py_scope.
Delimit Scope py_scope with py.
Notation "x <- c ;; k" := (bind c (fun x => k))
  (at level 61, c at next level, right associativity) : py_scope.
Local Open Scope py_scope.

(** * Library behaviour taken as given *)

(** A parsed [datetime]: the reading of its clock in seconds from
    1970-01-01T00:00:00 on that clock and, when the value is zone-aware, the
    offset of the clock from UTC in seconds. The clock is unbounded: the
    years 1 to 9999 that [datetime] is confined to, and the range error of
    date arithmetic at either end, are left out. *)
Record datetime := mk_datetime { dt_seconds : Z; dt_utcoffset : option Z }.

(** What pydantic stores in an [HttpUrl] field: a URL object, not a [str].
    [str(u)] is the normalised text. *)
Record Url := mk_url { url_text : string }.

Class Runtime := {
  (** [s.upper()] *)
  str_upper : string -> string;
  (** [float(s)] for a [str]: [None] when it raises [ValueError] *)
  float_of_str : string -> option float;
  (** [urllib.parse.urljoin(base, href)] *)
  urljoin : string -> string -> string;
  (** pydantic's validation of a [str] for an [HttpUrl] field: [None] when
      it raises [ValidationError] *)
  validate_http_url : string -> option Url;
  (** [dateutil.parser.parse(s)]: [None] when it raises one of
      [ValueError], [TypeError], [OverflowError] *)
  dateutil_parse : string -> option datetime
}.

(* ===================================================================== *)
(** * Market aggregator *)
(* ===================================================================== *)

(** ** fastpi/config.py: the settings the market service reads *)

Record Settings := mk_settings {
  bybit_base_url : string;
  binance_base_url : string;
  coincap_base_url : string;
  coincap_api_key : option string
}.

(** The base URLs are [HttpUrl] fields: what the service interpolates in its
    f-strings is the text of the validated URL, and validation gives a URL
    without a path the path [/]. The defaults are validated like any other
    value, so the requests for Binance and Bybit carry a doubled slash. *)
Definition default_settings : Settings :=
  {| bybit_base_url := "https://api.bybit.com/";
     binance_base_url := "https://api.binance.com/";
     coincap_base_url := "https://api.coincap.io/v2";
     coincap_api_key := None |}.

(** ** The shared HTTP client, as the services use it

    A request is the URL with its query parameters and extra headers.
    [get_json] stands for [client.get], [raise_for_status] and
    [response.json()] together: it raises on a transport failure, a non-2xx
    status or an undecodable body and otherwise gives the decoded document. *)

Record Request := mk_request {
  req_url : string;
  req_params : list (string * string);
  req_headers : list (string * string)
}.

(** ** fastpi/models/market.py *)

Record MarketPricePoint := mk_point {
  source : string;
  symbol : string;
  price : option float;
  change_24h : option float;
  volume_24h : option float;
  raw : option dict
}.

Record MarketAggregate := mk_aggregate {
  base_symbol : string;
  quote_symbol : string;
  agg_symbol : string;
  timestamp : Z;
  prices : list MarketPricePoint
}.

(** pydantic's check of the [raw] field, declared [dict[str, Any] | None]. *)
Definition validate_raw (v : json) : result (option dict) :=
  match v with
  | JNull => Ok None
  | JDict d => Ok (Some d)
  | _ => raise ValidationError "Input should be a valid dictionary"
  end.

(** The model constructor [MarketPricePoint(source=..., ..., raw=...)] called
    with a decoded document for [raw]. *)
Definition MarketPricePoint_init (src sym : string)
           (p c v : option float) (raw_value : json) : result MarketPricePoint :=
  r <- validate_raw raw_value ;;
  Ok (mk_point src sym p c v r).

Module Sorting.

(** [sorted(xs)] on floats that are numbers. CPython's sort is stable and
    asks only [x < y]: on values that are all comparable its result is the
    one ascending arrangement in which equal elements keep their order. The
    insertion below builds that arrangement: each element in turn goes into
    the sorted prefix, after the elements that are not greater. With a NaN
    among the values the comparisons are inconsistent and the list CPython
    returns depends on its run detection, which this definition does not
    follow; the properties of the order are stated for prices without NaN. *)
Fixpoint insert (x : float) (l : list float) : list float :=
  match l with
  | [] => [x]
  | y :: rest => if flt x y then x :: y :: rest else y :: insert x rest
  end.

Fixpoint sorted_from (prefix todo : list float) : list float :=
  match todo with
  | [] => prefix
  | x :: rest => sorted_from (insert x prefix) rest
  end.

Definition sorted (l : list float) : list float := sorted_from [] l.

(** No element is greater than one that comes after it. *)
Definition ascending (l : list float) : Prop :=
  StronglySorted (fun a b => flt b a = false) l.

End Sorting.

(** The order of two finite floats of one sign: by exponent, then by
    mantissa. *)
Definition mag_lt (m1 : positive) (e1 : Z) (m2 : positive) (e2 : Z) : Prop :=
  e1 < e2 \/ (e1 = e2 /\ (m1 < m2)%positive).

(** The generator [(point.price for point in self.prices if point.price is
    not None)]. *)
Fixpoint non_null_prices (points : list MarketPricePoint) : list float :=
  match points with
  | [] => []
  | point :: rest =>
      match price point with
      | Some x => x :: non_null_prices rest
      | None => non_null_prices rest
      end
  end.

(** [non_null[i]] for an index inside the list. *)
Definition item (l : list float) (i : nat) : float := nth i l S754_nan.

Definition median_price (self : MarketAggregate) : option float :=
  let non_null := Sorting.sorted (non_null_prices (prices self)) in
  match non_null with
  | [] => None
  | _ :: _ =>
      let mid := Nat.div (List.length non_null) 2 in
      if Nat.eqb (Nat.modulo (List.length non_null) 2) 0
      then Some (fdiv (fadd (item non_null (mid - 1)) (item non_null mid))
                      (float_lit 2))
      else Some (item non_null mid)
  end.

(** ** fastpi/services/market.py *)

Section MarketService.

Context {rt : Runtime}.

(** [float(value)] *)
Definition py_float (value : json) : result float :=
  match value with
  | JBool b => Ok (float_lit (if b then 1 else 0))
  | JInt n => float_of_int n
  | JFloat x => Ok x
  | JStr s =>
      match float_of_str s with
      | Some x => Ok x
      | None => raise ValueError
                  ("could not convert string to float: '" ++ s ++ "'")%string
      end
  | JNull | JList _ | JDict _ =>
      raise TypeError
            ("float() argument must be a string or a real number, not '"
               ++ type_name value ++ "'")%string
  end.

Definition _to_float (value : json) : result (option float) :=
  try_except
    (if is_none value || json_is_str "" value then Ok None
     else x <- py_float value ;; Ok (Some x))
    [TypeError; ValueError]
    (fun _ => Ok None).

Variable self : Settings.
Variable get_json : Request -> result json.

Definition _fetch_binance (base quote : string) : result MarketPricePoint :=
  let symbol := (base ++ quote)%string in
  let url := (binance_base_url self ++ "/api/v3/ticker/24hr")%string in
  payload <- get_json (mk_request url [("symbol", symbol)] []) ;;
  price <- (v <- py_get payload "lastPrice" JNull ;; _to_float v) ;;
  change <- (v <- py_get payload "priceChangePercent" JNull ;; _to_float v) ;;
  volume <- (v <- py_get payload "quoteVolume" JNull ;; _to_float v) ;;
  MarketPricePoint_init "binance" symbol price change volume payload.

Definition _fetch_bybit (base quote : string) : result MarketPricePoint :=
  let symbol := (base ++ quote)%string in
  let url := (bybit_base_url self ++ "/v5/market/tickers")%string in
  let params := [("category", "spot"); ("symbol", symbol)] in
  payload <- get_json (mk_request url params []) ;;
  res <- py_get payload "result" (JDict []) ;;
  items <- py_get res "list" (JList []) ;;
  first <- (if truthy items then py_item0 items else Ok JNull) ;;
  if negb (truthy first)
  then raise ValueError ("Bybit returned no ticker data for " ++ symbol)%string
  else
    price <- (v <- py_get first "lastPrice" JNull ;; _to_float v) ;;
    has_pct <- py_contains "price24hPcnt" first ;;
    change <- (if has_pct : bool
               then
                 pct <- (v <- py_get first "price24hPcnt" JNull ;; _to_float v) ;;
                 Ok (match pct with
                     | Some x => Some (fmul x (float_lit 100))
                     | None => None
                     end)
               else Ok None) ;;
    volume <- (v <- py_get first "turnover24h" JNull ;; _to_float v) ;;
    MarketPricePoint_init "bybit" symbol price change volume first.

(** [entry.get("symbol", "").upper()]: only a [str] has the method. *)
Definition symbol_upper (entry : json) : result string :=
  sym <- py_get entry "symbol" (JStr "") ;;
  match sym with
  | JStr s => Ok (str_upper s)
  | _ => no_attribute sym "upper"
  end.

(** The [for entry in data: ... break] loop: the first entry whose
    upper-cased symbol is [base_upper], if the loop reaches one. *)
Fixpoint find_match (base_upper : string) (entries : list json)
  : result (option json) :=
  match entries with
  | [] => Ok None
  | entry :: rest =>
      u <- symbol_upper entry ;;
      if String.eqb u base_upper then Ok (Some entry)
      else find_match base_upper rest
  end.

(** Lookup of the asset for [base] in the decoded [data] value. *)
Definition select_asset (base : string) (data : json) : result json :=
  let base_upper := str_upper base in
  entries <- py_iter data ;;
  found <- find_match base_upper entries ;;
  found <- (match found with
            | None => if truthy data
                      then (x <- py_item0 data ;; Ok (Some x))
                      else Ok None
            | Some m => Ok (Some m)
            end) ;;
  match found with
  | None => raise ValueError ("CoinCap returned no asset data for " ++ base)%string
  | Some m => Ok m
  end.

Definition _fetch_coincap (base quote : string) : result MarketPricePoint :=
  let url := (coincap_base_url self ++ "/assets")%string in
  let headers :=
    match coincap_api_key self with
    | Some key => if String.eqb key "" then []
                  else [("Authorization", ("Bearer " ++ key)%string)]
    | None => []
    end in
  payload <- get_json (mk_request url [("search", base)] headers) ;;
  data <- py_get payload "data" (JList []) ;;
  m <- select_asset base data ;;
  price <- (v <- py_get m "priceUsd" JNull ;; _to_float v) ;;
  change <- (v <- py_get m "changePercent24Hr" JNull ;; _to_float v) ;;
  volume <- (v <- py_get m "volumeUsd24Hr" JNull ;; _to_float v) ;;
  MarketPricePoint_init "coincap" (base ++ quote)%string price change volume m.

(** The placeholder appended for a task that ended in an exception. *)
Definition error_point (symbol : string) (e : exn) : MarketPricePoint :=
  mk_point "error" symbol None None None
           (Some [("message", JStr (str_exn e))]).

(** One pass of the collecting loop over [results]. *)
Definition collect (symbol : string) (r : result MarketPricePoint)
  : MarketPricePoint :=
  match r with
  | Ok point => point
  | Raise e => error_point symbol e
  end.

(** [fetch_symbol] once the client is at hand; [now] is the reading of
    [datetime.now(timezone.utc)]. *)
Definition fetch_symbol (now : Z) (base_symbol quote_symbol : string)
  : MarketAggregate :=
  let base := str_upper base_symbol in
  let quote := str_upper quote_symbol in
  let symbol := (base ++ quote)%string in
  let tasks := [ _fetch_binance base quote;
                 _fetch_bybit base quote;
                 _fetch_coincap base quote ] in
  let results := gather tasks in
  let price_points := map (collect symbol) results in
  mk_aggregate base quote symbol now price_points.





(** What one slot of the snapshot holds for a provider whose task ended
    as [task]: the provider's own point, or the placeholder with the
    message of the exception. *)
Definition slot_of (provider symbol : string)
           (task : result MarketPricePoint) (p : MarketPricePoint) : Prop :=
  match task with
  | Ok point => p = point /\ source p = provider
  | Raise e =>
      p = mk_point "error" symbol None None None
                   (Some [("message", JStr (str_exn e))])
  end.

End MarketService.

(* ===================================================================== *)
(** * News aggregator *)
(* ===================================================================== *)

(** ** fastpi/models/news.py *)

Record NewsArticle := mk_article {
  art_source : string;
  title : string;
  url : Url;
  published_at : option datetime;
  summary : option string;
  metadata : dict
}.

Record NewsFeed := mk_feed {
  feed_source : string;
  feed_fetched_at : Z;
  items : list NewsArticle
}.

Record NewsAggregate := mk_news {
  fetched_at : Z;
  feeds : list NewsFeed
}.

(** ** The parsed document, as far as the scraper queries it

    BeautifulSoup is seen through the queries the service makes: the tags a
    [find_all] or [select] returns, and for a tag its attributes, its
    stripped text and the first descendant of a given name. *)

(** An [<a>] tag: [get("href")] and [get_text(strip=True)]. *)
Record Anchor := mk_anchor {
  a_href : option string;
  a_text : string
}.

(** A [<time>] tag: its two attributes and its stripped text. *)
Record TimeTag := mk_time {
  time_datetime : option string;
  time_data_datetime : option string;
  time_text : string
}.

(** An [<article>] element: its [<a>] descendants in document order, the
    stripped text of [find("p")] and the tag [find("time")]. *)
Record ArticleTag := mk_article_tag {
  tag_anchors : list Anchor;
  tag_p : option string;
  tag_time : option TimeTag
}.

(** An RSS [<item>]: the stripped text of each child the service looks up. *)
Record ItemTag := mk_item {
  item_title : option string;
  item_link : option string;
  item_pubDate : option string;
  item_dc_date : option string;
  item_description : option string
}.

Record Soup := mk_soup {
  find_all_article : list ArticleTag;      (* soup.find_all("article") *)
  select_headlines : list Anchor;          (* soup.select("h2 a, h3 a, .headline a") *)
  find_all_item : list ItemTag             (* soup.find_all("item") *)
}.

(** ** fastpi/services/news.py *)

Record ScrapeTarget := mk_target {
  name : string;
  target_url : string;
  limit : Z
}.

(** [ScrapeTarget(name, url)] with the default [limit = 6]. *)
Definition target (n u : string) : ScrapeTarget := mk_target n u 6.

Definition SCRAPE_TARGETS : list ScrapeTarget :=
  [ target "CoinDesk" "https://www.coindesk.com/";
    target "The Block" "https://www.theblock.co/latest";
    target "Blockworks" "https://blockworks.co/news";
    target "Cointelegraph" "https://cointelegraph.com/";
    target "The Defiant" "https://thedefiant.io/latest";
    target "DL News" "https://www.dlnews.com/";
    target "Protos" "https://protos.com/";
    target "Decrypt" "https://decrypt.co/";
    target "Messari" "https://messari.io/news";
    target "Glassnode Insights" "https://insights.glassnode.com/";
    target "CryptoPanic" "https://cryptopanic.com/news/rss/" ].

(** Values that meet in the membership tests on [seen]: a [str], or the URL
    object pydantic keeps in [NewsArticle.url]. *)
Inductive pyval :=
| PStr (s : string)
| PUrl (u : Url).

(** [x == y]. The URL class of pydantic is not a [str] and only compares
    equal to another URL object. *)
Definition py_eq (x y : pyval) : bool :=
  match x, y with
  | PStr s, PStr t => String.eqb s t
  | PUrl u, PUrl v => String.eqb (url_text u) (url_text v)
  | _, _ => false
  end.

(** [x in seen] where [seen] is a [set[str]]. *)
Definition set_contains (seen : list string) (x : pyval) : bool :=
  existsb (fun s => py_eq x (PStr s)) seen.

(** [seen.add(s)] *)
Definition set_add (s : string) (seen : list string) : list string := s :: seen.

(** [a or b] on optional strings: the first truthy operand, else the last. *)
Definition str_or (a b : option string) : option string :=
  match a with
  | Some s => if String.eqb s "" then b else a
  | None => b
  end.

Section NewsService.

Context {rt : Runtime}.

(** [_parse_datetime]: a date without a zone is stamped UTC, one with a
    zone is moved to UTC. The move, [parsed.astimezone(timezone.utc)], stands
    outside the [try]; on the unbounded clock of [datetime] it always
    succeeds. *)
Definition _parse_datetime (value : option string) : option datetime :=
  match value with
  | None => None
  | Some v =>
      if String.eqb v "" then None
      else
        match dateutil_parse v with
        | None => None
        | Some parsed =>
            match dt_utcoffset parsed with
            | None => Some (mk_datetime (dt_seconds parsed) (Some 0))
            | Some off => Some (mk_datetime (dt_seconds parsed - off) (Some 0))
            end
        end
  end.

(** The model constructor [NewsArticle(...)]: the [url] argument is a
    [str] that pydantic validates and stores as a URL object. Of the text
    of pydantic's error, which goes on to name the field and the input, the
    first line is kept. *)
Definition NewsArticle_init (src ttl link : string)
           (smry : option string) (published : option datetime)
           (meta : dict) : result NewsArticle :=
  match validate_http_url link with
  | Some u => Ok (mk_article src ttl u published smry meta)
  | None => raise ValidationError "1 validation error for NewsArticle"
  end.

(** [element.find("a", href=True)] *)
Definition find_anchor_with_href (element : ArticleTag) : option Anchor :=
  find (fun a => match a_href a with Some _ => true | None => false end)
       (tag_anchors element).

Definition _build_article_from_element
           (element : ArticleTag) (base_url src : string)
  : result (option NewsArticle) :=
  match find_anchor_with_href element with
  | None => Ok None
  | Some anchor =>
      let ttl := a_text anchor in
      if String.eqb ttl "" || (len_str ttl <? 5) then Ok None
      else
        let href := urljoin base_url
                            (match a_href anchor with Some h => h | None => "" end) in
        if negb (startswith href "http") then Ok None
        else
          let smry := tag_p element in
          let published :=
            match tag_time element with
            | Some time_tag =>
                _parse_datetime
                  (str_or (str_or (time_datetime time_tag)
                                  (time_data_datetime time_tag))
                          (Some (time_text time_tag)))
            | None => None
            end in
          a <- NewsArticle_init src ttl href smry published [] ;;
          Ok (Some a)
  end.

Section Extract.

Variables (base_url src : string) (lim : Z).

(** The loop over [soup.find_all("article")]. The test [item.url not in
    seen] looks the URL object of the article up in the set of strings;
    [seen.add(str(item.url))] stores its text. *)
Fixpoint structured_pass (elements : list ArticleTag)
         (articles : list NewsArticle) (seen : list string)
  : result (list NewsArticle * list string) :=
  match elements with
  | [] => Ok (articles, seen)
  | element :: rest =>
      it <- _build_article_from_element element base_url src ;;
      let '(articles, seen) :=
        match it with
        | Some a =>
            if negb (set_contains seen (PUrl (url a)))
            then (articles ++ [a], set_add (url_text (url a)) seen)
            else (articles, seen)
        | None => (articles, seen)
        end in
      if lim <=? len articles then Ok (articles, seen)
      else structured_pass rest articles seen
  end.

(** The loop over the fallback anchors. *)
Fixpoint fallback_pass (anchors : list Anchor)
         (articles : list NewsArticle) (seen : list string)
  : result (list NewsArticle) :=
  match anchors with
  | [] => Ok articles
  | anchor :: rest =>
      let ttl := a_text anchor in
      match a_href anchor with
      | None => fallback_pass rest articles seen
      | Some href =>
          if String.eqb href "" || String.eqb ttl "" || (len_str ttl <? 5)
          then fallback_pass rest articles seen
          else
            let absolute := urljoin base_url href in
            if negb (startswith absolute "http")
            then fallback_pass rest articles seen
            else if set_contains seen (PStr absolute)
            then fallback_pass rest articles seen
            else
              a <- NewsArticle_init src ttl absolute None None [] ;;
              let articles := articles ++ [a] in
              let seen := set_add absolute seen in
              if lim <=? len articles then Ok articles
              else fallback_pass rest articles seen
      end
  end.

Definition _extract_articles (soup : Soup) : result (list NewsArticle) :=
  st <- structured_pass (find_all_article soup) [] [] ;;
  let '(articles, seen) := st in
  articles <- (if len articles <? lim
               then fallback_pass (select_headlines soup) articles seen
               else Ok articles) ;;
  Ok (slice_to articles lim).

End Extract.

(** Every anchor the two tiers can look at. *)
Definition soup_anchors (soup : Soup) : list Anchor :=
  List.concat (map tag_anchors (find_all_article soup)) ++ select_headlines soup.

(** The article [a] was taken from [anchor] and [anchor] passes the filter:
    it has an href, its text is the title and has at least 5 characters,
    and the href joined to the base starts with "http" and is accepted as
    an http(s) URL, which [a] carries. *)
Definition accepted (base_url : string) (anchor : Anchor) (a : NewsArticle)
  : Prop :=
  exists href,
    a_href anchor = Some href /\
    title a = a_text anchor /\
    5 <= len_str (title a) /\
    startswith (urljoin base_url href) "http" = true /\
    validate_http_url (urljoin base_url href) = Some (url a).

Definition sourced (base_url : string) (pool : list Anchor) (a : NewsArticle)
  : Prop :=
  exists anchor, In anchor pool /\ accepted base_url anchor a.

(** [get_soup] stands for [client.get], [raise_for_status] and the
    BeautifulSoup parse of the body. *)
Variable get_soup : Request -> result Soup.
Variable now : Z.

Definition _scrape_generic (tgt : ScrapeTarget) (lim : Z) : result NewsFeed :=
  soup <- get_soup (mk_request (target_url tgt) [] []) ;;
  articles <- _extract_articles (target_url tgt) (name tgt) lim soup ;;
  Ok (mk_feed (name tgt) now articles).

(** The loop over [soup.find_all("item")]. *)
Fixpoint rss_pass (src : string) (lim : Z) (entries : list ItemTag)
         (acc : list NewsArticle) (seen : list string)
  : result (list NewsArticle) :=
  match entries with
  | [] => Ok acc
  | entry :: rest =>
      match item_title entry, item_link entry with
      | Some ttl, Some link =>
          if String.eqb ttl "" || String.eqb link ""
             || set_contains seen (PStr link)
          then rss_pass src lim rest acc seen
          else
            let date_text :=
              match item_pubDate entry with
              | Some d => Some d
              | None => item_dc_date entry
              end in
            let published := _parse_datetime date_text in
            let smry := item_description entry in
            a <- NewsArticle_init src ttl link smry published [] ;;
            let acc := acc ++ [a] in
            let seen := set_add link seen in
            if lim <=? len acc then Ok acc
            else rss_pass src lim rest acc seen
      | _, _ => rss_pass src lim rest acc seen
      end
  end.

Definition _fetch_cryptopanic_rss (tgt : ScrapeTarget) (lim : Z)
  : result NewsFeed :=
  soup <- get_soup (mk_request (target_url tgt) []
                      [("Accept", "application/rss+xml, application/xml")]) ;;
  its <- rss_pass (name tgt) lim (find_all_item soup) [] [] ;;
  Ok (mk_feed (name tgt) now its).

Definition _fetch_target (tgt : ScrapeTarget) (limit_per_source : Z)
  : result NewsFeed :=
  let lim := Z.min limit_per_source (limit tgt) in
  if String.eqb (name tgt) "CryptoPanic"
  then _fetch_cryptopanic_rss tgt lim
  else _scrape_generic tgt lim.

(** The feed built for a target whose task ended in an exception. The
    literal URL is a valid one; pydantic stores it as it stands. *)
Definition failed_feed (tgt : ScrapeTarget) (e : exn) : NewsFeed :=
  let message := str_exn e in
  mk_feed (name tgt) now
          [ mk_article (name tgt) "Failed to retrieve articles"
                       (mk_url "https://status.fastpi.dev/error")
                       None (Some message)
                       [("error", JStr message)] ].

(** [fetch_all] over a tuple of targets ([SCRAPE_TARGETS] in the module;
    the tests swap in their own). *)
Definition fetch_all_over (targets : list ScrapeTarget)
           (limit_per_source : Z) : NewsAggregate :=
  let tasks := map (fun tgt => _fetch_target tgt limit_per_source) targets in
  let results := gather tasks in
  let feeds :=
    map (fun tr : ScrapeTarget * result NewsFeed =>
           match snd tr with
           | Ok feed => feed
           | Raise e => failed_feed (fst tr) e
           end)
        (combine targets results) in
  mk_news now feeds.

Definition fetch_all (limit_per_source : Z) : NewsAggregate :=
  fetch_all_over SCRAPE_TARGETS limit_per_source.

(** The one article of the feed of a failed target. *)
Definition synthetic_article (tgt : ScrapeTarget) (message : string)
  : NewsArticle :=
  {| art_source := name tgt;
     title := "Failed to retrieve articles";
     url := mk_url "https://status.fastpi.dev/error";
     published_at := None;
     summary := Some message;
     metadata := [("error", JStr message)] |}.

End NewsService.

(* ===================================================================== *)
(** * A runtime for plain ASCII inputs *)
(* ===================================================================== *)

(** The services are run below on concrete documents. [ascii_runtime] gives
    the library functions on the inputs used there: ASCII letters, plain
    decimal literals, http(s) URLs joined with absolute or root-relative
    references, and the date texts of the documents. *)

Module AsciiRuntime.

Definition upper_char (c : ascii) : ascii :=
  let n := N_of_ascii c in
  if (N.leb 97 n && N.leb n 122)%bool then ascii_of_N (n - 32) else c.

Fixpoint upper (s : string) : string :=
  match s with
  | EmptyString => EmptyString
  | String c rest => String (upper_char c) (upper rest)
  end.

Definition digit_of (c : ascii) : option Z :=
  let n := Z.of_N (N_of_ascii c) in
  if (48 <=? n) && (n <=? 57) then Some (n - 48) else None.

(** Digits with at most one point: the integer they spell once the point
    is dropped, and the number of digits after the point. *)
Fixpoint scan_digits (s : string) (after_point : bool) (mant : Z)
         (frac : Z) (any : bool) : option (Z * Z) :=
  match s with
  | EmptyString => if any then Some (mant, frac) else None
  | String c rest =>
      if Ascii.eqb c "."
      then if after_point then None
           else scan_digits rest true mant frac any
      else match digit_of c with
           | Some d => scan_digits rest after_point (10 * mant + d)
                                   (if after_point then frac + 1 else frac) true
           | None => None
           end
  end.

(** The binary64 value nearest to [m / 10^k] for [m > 0]: the quotient is
    taken with more than 64 bits and a sticky last bit, then rounded once. *)
Definition nearest_ratio (negative : bool) (m k : Z) : float :=
  let d := 10 ^ k in
  let s := Z.max 0 (66 + Z.log2 d - Z.log2 m) in
  let n := m * 2 ^ s in
  let q := n / d in
  let sticky := if n mod d =? 0 then 0 else 1 in
  let mant := 2 * q + sticky in
  binary_normalize prec emax (if negative then - mant else mant) (- s - 1) negative.

Definition parse_unsigned (negative : bool) (s : string) : option float :=
  match scan_digits s false 0 0 false with
  | Some (m, k) =>
      Some (if m =? 0 then S754_zero negative else nearest_ratio negative m k)
  | None => None
  end.

Definition parse_float (s : string) : option float :=
  match s with
  | String "-" rest => parse_unsigned true rest
  | String "+" rest => parse_unsigned false rest
  | _ => parse_unsigned false s
  end.

Fixpoint until_slash (s : string) : string :=
  match s with
  | EmptyString => EmptyString
  | String c rest => if Ascii.eqb c "/" then EmptyString
                     else String c (until_slash rest)
  end.

Definition drop (n : nat) (s : string) : string :=
  String.substring n (String.length s - n) s.

Definition scheme_of (u : string) : option string :=
  if String.prefix "https://" u then Some "https://"
  else if String.prefix "http://" u then Some "http://"
  else None.

(** Scheme and authority of an http(s) URL. *)
Definition origin (u : string) : string :=
  match scheme_of u with
  | Some sch => (sch ++ until_slash (drop (String.length sch) u))%string
  | None => u
  end.

Definition join (base href : string) : string :=
  if String.eqb href "" then base
  else match scheme_of href with
       | Some _ => href
       | None => if String.prefix "/" href then (origin base ++ href)%string
                 else href
       end.

(** An http(s) URL with a host is accepted; one without a path gets [/]. *)
Definition validate (u : string) : option Url :=
  match scheme_of u with
  | Some sch =>
      let rest := drop (String.length sch) u in
      if String.eqb (until_slash rest) "" then None
      else if String.eqb (until_slash rest) rest
           then Some (mk_url (u ++ "/")%string)
           else Some (mk_url u)
  | None => None
  end.

(** Days from 1970-01-01 to a date of the Gregorian calendar. *)
Definition days_from_civil (y m d : Z) : Z :=
  let y' := if m <=? 2 then y - 1 else y in
  let era := y' / 400 in
  let year_of_era := y' - era * 400 in
  let day_of_year := (153 * ((m + 9) mod 12) + 2) / 5 + d - 1 in
  let day_of_era :=
    year_of_era * 365 + year_of_era / 4 - year_of_era / 100 + day_of_year in
  era * 146097 + day_of_era - 719468.

Definition clock (y m d hh mm ss : Z) : Z :=
  86400 * days_from_civil y m d + 3600 * hh + 60 * mm + ss.

(** The date texts of the documents below as the parser reads them: the
    reading of the clock and the zone offset. Any other text counts as
    unparseable. *)
Definition parse_date (s : string) : option datetime :=
  if String.eqb s "2024-05-20T12:34:00Z"
  then Some (mk_datetime (clock 2024 5 20 12 34 0) (Some 0))
  else if String.eqb s "May 21, 2024 09:15 UTC"
  then Some (mk_datetime (clock 2024 5 21 9 15 0) (Some 0))
  else if String.eqb s "Mon, 20 May 2024 15:20:00 +0000"
  then Some (mk_datetime (clock 2024 5 20 15 20 0) (Some 0))
  else if String.eqb s "2024-05-20T17:20:00+02:00"
  then Some (mk_datetime (clock 2024 5 20 17 20 0) (Some 7200))
  else if String.eqb s "2024-05-20 15:20:00"
  then Some (mk_datetime (clock 2024 5 20 15 20 0) None)
  else None.

End AsciiRuntime.

Definition ascii_runtime : Runtime :=
  {| str_upper := AsciiRuntime.upper;
     float_of_str := AsciiRuntime.parse_float;
     urljoin := AsciiRuntime.join;
     validate_http_url := AsciiRuntime.validate;
     dateutil_parse := AsciiRuntime.parse_date |}.

(** ** Documents to run the services on *)

Module Fixtures.

(** The float a decimal literal denotes. *)
Definition num (s : string) : float :=
  match AsciiRuntime.parse_float s with
  | Some x => x
  | None => S754_nan
  end.

Definition point (p : option float) : MarketPricePoint :=
  mk_point "binance" "BTCUSDT" p None None None.

Definition snapshot (ps : list (option float)) : MarketAggregate :=
  mk_aggregate "BTC" "USDT" "BTCUSDT" 0 (map point ps).

(** The three upstreams answering with the payloads of
    [test_fetch_symbol_aggregates_all_sources]. The routes are the URLs the
    service asks for under the default settings (the test registers the
    first two with a single slash after the host); any other request fails
    in transport. *)
Definition mocked_exchanges (r : Request) : result json :=
  if String.eqb (req_url r) "https://api.binance.com//api/v3/ticker/24hr"
  then Ok (JDict [("lastPrice", JStr "64000.12");
                  ("priceChangePercent", JStr "2.5");
                  ("quoteVolume", JStr "450000000.0")])
  else if String.eqb (req_url r) "https://api.bybit.com//v5/market/tickers"
  then Ok (JDict [("result",
                   JDict [("list",
                           JList [JDict [("lastPrice", JStr "63950.55");
                                         ("price24hPcnt", JStr "0.025");
                                         ("turnover24h", JStr "420000000.0")]])])])
  else if String.eqb (req_url r) "https://api.coincap.io/v2/assets"
  then Ok (JDict [("data",
                   JList [JDict [("symbol", JStr "BTC");
                                 ("priceUsd", JStr "63975.10");
                                 ("changePercent24Hr", JStr "2.45");
                                 ("volumeUsd24Hr", JStr "410000000.0")]])])
  else raise HTTPError "All connection attempts failed".

(** The page of [test_news_service_extracts_articles], as the scraper
    queries it. *)
Definition test_page : Soup :=
  mk_soup
    [ mk_article_tag [mk_anchor (Some "/article-1") "First crypto update"]
                     (Some "Summary about the first article.")
                     (Some (mk_time (Some "2024-05-20T12:34:00Z") None ""));
      mk_article_tag [mk_anchor (Some "https://external.com/article-2")
                                "Second crypto insight"]
                     None
                     (Some (mk_time None None "May 21, 2024 09:15 UTC")) ]
    [] [].

End Fixtures.

(* ===================================================================== *)
(** * Further notions used by the properties below *)
(* ===================================================================== *)

(** [d.get(key)]: the value under [key], [None] when the key is missing. *)
Definition field (d : dict) (key : string) : json :=
  match dict_lookup d key with
  | Some x => x
  | None => JNull
  end.

(** The one request each provider task sends, in task order. *)
Definition provider_requests (self : Settings) (base quote : string)
  : list Request :=
  [ mk_request (binance_base_url self ++ "/api/v3/ticker/24hr")%string
               [("symbol", (base ++ quote)%string)] [];
    mk_request (bybit_base_url self ++ "/v5/market/tickers")%string
               [("category", "spot"); ("symbol", (base ++ quote)%string)] [];
    mk_request (coincap_base_url self ++ "/assets")%string
               [("search", base)]
               (match coincap_api_key self with
                | Some key => if String.eqb key "" then []
                              else [("Authorization", ("Bearer " ++ key)%string)]
                | None => []
                end) ].

(** A price that orders like a number and has one spelling: not NaN and not
    the negative zero (which compares equal to [0.0]). *)
Definition ordinary (x : float) : Prop :=
  x <> S754_nan /\ x <> S754_zero true.

(** [sub] keeps some elements of [l], in their order. *)
Inductive subseq {A : Type} : list A -> list A -> Prop :=
| subseq_nil : subseq [] []
| subseq_skip : forall x sub l, subseq sub l -> subseq sub (x :: l)
| subseq_take : forall x sub l, subseq sub l -> subseq (x :: sub) (x :: l).

(** A publication time is either missing or zone-aware in UTC. *)
Definition utc_or_null (a : NewsArticle) : Prop :=
  match published_at a with
  | None => True
  | Some d => dt_utcoffset d = Some 0
  end.

(** The date text the RSS path reads from an item: [pubDate], else
    [dc:date]. *)
Definition item_date_text (entry : ItemTag) : option string :=
  match item_pubDate entry with
  | Some d => Some d
  | None => item_dc_date entry
  end.

Section NewsNotions.

Context {rt : Runtime}.

(** The article the RSS path makes of an item that has a title and a link,
    both non-empty. *)
Definition built_from_item (src : string) (entry : ItemTag) (a : NewsArticle)
  : Prop :=
  exists ttl link u,
    item_title entry = Some ttl /\ ttl <> "" /\
    item_link entry = Some link /\ link <> "" /\
    validate_http_url link = Some u /\
    a = mk_article src ttl u (_parse_datetime (item_date_text entry))
                   (item_description entry) [].

(** The article the fallback tier makes of a headline anchor: no summary
    and no date. *)
Definition built_from_headline (base_url src : string) (anchor : Anchor)
           (a : NewsArticle) : Prop :=
  exists href u,
    a_href anchor = Some href /\ href <> "" /\
    5 <= len_str (a_text anchor) /\
    startswith (urljoin base_url href) "http" = true /\
    validate_http_url (urljoin base_url href) = Some u /\
    a = mk_article src (a_text anchor) u None None [].

(** The resolved URL of a headline anchor. *)
Definition resolved (base_url : string) (anchor : Anchor) : string :=
  urljoin base_url (match a_href anchor with Some h => h | None => "" end).

End NewsNotions.

(* ===================================================================== *)
(** * The shared client: fastpi/config.py and fastpi/http_client.py *)
(* ===================================================================== *)

(** The fields of [Settings] the client is built from, with their
    defaults. *)
Record PoolSettings := mk_pool_settings {
  http_timeout : float;
  http_max_connections : Z;
  http_max_keepalive : Z;
  http_user_agent : string
}.

Definition default_pool_settings : PoolSettings :=
  {| http_timeout := float_lit 10;
     http_max_connections := 20;
     http_max_keepalive := 10;
     http_user_agent :=
       "FastPI/0.1 (+https://example.com; contact=admin@example.com)" |}.

(** An [httpx.AsyncClient] object. [serial] stands for the identity of the
    object: the n-th client the process constructs has serial n. *)
Record AsyncClient := mk_client {
  serial : nat;
  timeout : float;
  max_connections : Z;
  max_keepalive_connections : Z;
  headers : list (string * string)
}.

(** The module state: the global [_client], how many clients were
    constructed so far, and the clients that were closed. *)
Record ClientModule := mk_module {
  _client : option AsyncClient;
  constructed : nat;
  closed : list AsyncClient
}.

Definition module_loaded : ClientModule := mk_module None 0 [].

(** The constructor call inside [get_http_client]. *)
Definition construct (settings : PoolSettings) (n : nat) : AsyncClient :=
  {| serial := n;
     timeout := http_timeout settings;
     max_connections := http_max_connections settings;
     max_keepalive_connections := http_max_keepalive settings;
     headers := [("User-Agent", http_user_agent settings)] |}.

(** The body guarded by [if _client is None]: construct and store. *)
Definition create_if_none (settings : PoolSettings) (m : ClientModule)
  : ClientModule :=
  match _client m with
  | Some _ => m
  | None =>
      mk_module (Some (construct settings (constructed m)))
                (S (constructed m)) (closed m)
  end.

(** [get_http_client] run without interruption. *)
Definition get_http_client (settings : PoolSettings) (m : ClientModule)
  : option AsyncClient * ClientModule :=
  let m' := create_if_none settings m in
  (_client m', m').

(** [shutdown_http_client] run without interruption. *)
Definition shutdown_http_client (m : ClientModule) : ClientModule :=
  match _client m with
  | Some c => mk_module None (constructed m) (c :: closed m)
  | None => m
  end.

(** A run of the process: calls of the two functions, one after the other. *)
Inductive client_call :=
| CallGet
| CallShutdown.

Definition call (settings : PoolSettings) (m : ClientModule) (c : client_call)
  : ClientModule :=
  match c with
  | CallGet => snd (get_http_client settings m)
  | CallShutdown => shutdown_http_client m
  end.

Definition run_calls (settings : PoolSettings) (calls : list client_call)
  : ClientModule :=
  fold_left (call settings) calls module_loaded.

(** What every run of calls keeps true of the module: each client, closed
    or open, was built from the settings and has a serial below the number of
    constructions; a closed client is older than the open one; and all
    clients but the open one are closed. *)
Definition module_ok (settings : PoolSettings) (m : ClientModule) : Prop :=
  (forall c, In c (closed m) ->
             (serial c < constructed m)%nat /\ c = construct settings (serial c)) /\
  (forall c, _client m = Some c ->
             (serial c < constructed m)%nat /\ c = construct settings (serial c)) /\
  (forall c o, _client m = Some o -> In c (closed m) ->
               (serial c < serial o)%nat) /\
  constructed m
  = (List.length (closed m) + match _client m with Some _ => 1 | None => 0 end)%nat.

(** Several calls of [get_http_client] in flight at once. Each one is at
    one of the places where another task may run before it goes on: before
    the outer test, waiting for the lock, inside the lock before the inner
    test, about to leave the lock, about to return; or it has returned.
    Between two such places a call runs without interruption. The event
    loop only switches tasks at an [await], so the schedules it produces
    are among those of this model. *)
Inductive place :=
| AtOuterTest
| AtLock
| AtInnerTest
| AtUnlock
| AtReturn
| Returned (c : option AsyncClient).

Record Flight := mk_flight {
  module_state : ClientModule;
  lock_taken : bool;
  calls_in_flight : list place
}.

Fixpoint update {A} (l : list A) (i : nat) (x : A) : list A :=
  match l, i with
  | [], _ => []
  | _ :: rest, O => x :: rest
  | y :: rest, S j => y :: update rest j x
  end.

(** Call number [i] takes its next step, if it can. *)
Definition step (settings : PoolSettings) (f : Flight) (i : nat) : option Flight :=
  let m := module_state f in
  let move p := update (calls_in_flight f) i p in
  match nth_error (calls_in_flight f) i with
  | Some AtOuterTest =>
      Some (mk_flight m (lock_taken f)
                      (move (match _client m with
                             | None => AtLock
                             | Some _ => AtReturn
                             end)))
  | Some AtLock =>
      if lock_taken f then None
      else Some (mk_flight m true (move AtInnerTest))
  | Some AtInnerTest =>
      Some (mk_flight (create_if_none settings m) (lock_taken f) (move AtUnlock))
  | Some AtUnlock => Some (mk_flight m false (move AtReturn))
  | Some AtReturn => Some (mk_flight m (lock_taken f) (move (Returned (_client m))))
  | Some (Returned _) | None => None
  end.

(** A schedule names the call that moves at each turn; a call that cannot
    move leaves everything as it is. *)
Fixpoint run_schedule (settings : PoolSettings) (f : Flight) (schedule : list nat)
  : Flight :=
  match schedule with
  | [] => f
  | i :: rest =>
      run_schedule settings
                   (match step settings f i with Some f' => f' | None => f end)
                   rest
  end.

(** [n] calls made at once on a module in state [m]. *)
Definition take_off (m : ClientModule) (n : nat) : Flight :=
  mk_flight m false (repeat AtOuterTest n).

(** What every schedule keeps true, for calls that took off on a module in
    state [m0]: the module is still as it was or as one uninterrupted call
    would have left it; a call past the inner test sees a client; and a call
    that has returned holds what an uninterrupted call would have
    returned. *)
Definition place_ok (settings : PoolSettings) (m0 m : ClientModule) (p : place)
  : Prop :=
  match p with
  | AtUnlock | AtReturn => _client m <> None
  | Returned r => r = fst (get_http_client settings m0)
  | AtOuterTest | AtLock | AtInnerTest => True
  end.

Definition flight_ok (settings : PoolSettings) (m0 : ClientModule) (f : Flight)
  : Prop :=
  (module_state f = m0 \/ module_state f = create_if_none settings m0) /\
  Forall (place_ok settings m0 (module_state f)) (calls_in_flight f).

(** A call is inside [async with _client_lock] from the moment it has the
    lock until it leaves it. *)
Definition inside_lock (p : place) : bool :=
  match p with
  | AtInnerTest | AtUnlock => true
  | _ => false
  end.

Definition holders (f : Flight) : nat :=
  List.length (filter inside_lock (calls_in_flight f)).

(* ===================================================================== *)
(** * The news endpoint: api/index.py *)
(* ===================================================================== *)

Inductive http_response (A : Type) :=
| Response200 (body : A)
| Response422.
Arguments Response200 {A} body.
Arguments Response422 {A}.

(** [GET /news/aggregate]: the query parameter [limit] defaults to 6 and is
    validated by [Query(6, ge=1, le=12)] before the handler runs. *)
Definition news_aggregate {rt : Runtime} (get_soup : Request -> result Soup)
           (now : Z) (limit_param : option Z) : http_response NewsAggregate :=
  let limit := match limit_param with Some n => n | None => 6 end in
  if (1 <=? limit) && (limit <=? 12)
  then Response200 (fetch_all get_soup now limit)
  else Response422.

(** The one request made for a target. *)
Definition target_request (tgt : ScrapeTarget) : Request :=
  if String.eqb (name tgt) "CryptoPanic"
  then mk_request (target_url tgt) []
                  [("Accept", "application/rss+xml, application/xml")]
  else mk_request (target_url tgt) [] [].

(** ** More documents to run the services on *)

Module MoreFixtures.

(** The Bybit ticker of the service's test. *)
Definition bybit_ticker : dict :=
  [("lastPrice", JStr "63950.55"); ("price24hPcnt", JStr "0.025");
   ("turnover24h", JStr "420000000.0")].

(** The three upstreams as in the test, except that only Binance is up. *)
Definition only_binance_up (r : Request) : result json :=
  if String.eqb (req_url r) "https://api.binance.com//api/v3/ticker/24hr"
  then Fixtures.mocked_exchanges r
  else raise HTTPError "All connection attempts failed".

(** The RSS document of the service's test, with the item repeated and an
    item without a link added. *)
Definition rss_doc : Soup :=
  let sentiment :=
    mk_item (Some "Market sentiment flips")
            (Some "https://cryptopanic.com/news/market-sentiment")
            (Some "Mon, 20 May 2024 15:20:00 +0000") None
            (Some "Quick summary.") in
  mk_soup [] []
    [ sentiment;
      mk_item (Some "No link here") None None None None;
      sentiment;
      mk_item (Some "Rates decision looms")
              (Some "https://cryptopanic.com/news/rates") None None None ].

(** A page with one structured article and three headline anchors: one
    links to the structured article, two to one other page. *)
Definition headline_page : Soup :=
  mk_soup
    [ mk_article_tag [mk_anchor (Some "/story") "Crypto surges today"] None None ]
    [ mk_anchor (Some "https://example.com/story") "Crypto surges today";
      mk_anchor (Some "/etf") "Funds file for spot ETF";
      mk_anchor (Some "https://example.com/etf") "Funds file for spot ETF" ]
    [].

End MoreFixtures.

(* ===================================================================== *)
(** * Properties *)
(* ===================================================================== *)

(** ** The order [<] on floats *)

Section FloatOrder.

Lemma mag_lt_trans m1 e1 m2 e2 m3 e3 :
  mag_lt m1 e1 m2 e2 -> mag_lt m2 e2 m3 e3 -> mag_lt m1 e1 m3 e3.
Proof. unfold mag_lt. lia. Qed.

Lemma mag_lt_asym m1 e1 m2 e2 :
  mag_lt m1 e1 m2 e2 -> ~ mag_lt m2 e2 m1 e1.
Proof. unfold mag_lt. lia. Qed.

Lemma flt_pos_finite m1 e1 m2 e2 :
  flt (S754_finite false m1 e1) (S754_finite false m2 e2) = true
  <-> mag_lt m1 e1 m2 e2.
Proof.
  unfold flt, SFltb, SFcompare, mag_lt.
  destruct (Z.compare_spec e1 e2) as [He | He | He].
  - change (Pos.compare_cont Eq m1 m2) with (m1 ?= m2)%positive.
    destruct (Pos.compare_spec m1 m2) as [Hm | Hm | Hm].
    + split; [discriminate | lia].
    + split; [lia | reflexivity].
    + split; [discriminate | lia].
  - split; [lia | reflexivity].
  - split; [discriminate | lia].
Qed.

Lemma flt_neg_finite m1 e1 m2 e2 :
  flt (S754_finite true m1 e1) (S754_finite true m2 e2) = true
  <-> mag_lt m2 e2 m1 e1.
Proof.
  unfold flt, SFltb, SFcompare, mag_lt.
  destruct (Z.compare_spec e1 e2) as [He | He | He].
  - change (Pos.compare_cont Eq m1 m2) with (m1 ?= m2)%positive.
    destruct (Pos.compare_spec m1 m2) as [Hm | Hm | Hm]; simpl.
    + split; [discriminate | lia].
    + split; [discriminate | lia].
    + split; [lia | reflexivity].
  - split; [discriminate | lia].
  - split; [lia | reflexivity].
Qed.

Lemma flt_trans (x y z : float) :
  flt x y = true -> flt y z = true -> flt x z = true.
Proof.
  destruct x as [sx | sx | | sx mx ex], y as [sy | sy | | sy my ey],
           z as [sz | sz | | sz mz ez];
    try destruct sx; try destruct sy; try destruct sz;
    try (cbv; congruence);
    try (intros _ _; reflexivity);
    try (intros H _; discriminate H);
    try (intros _ H; discriminate H).
  - rewrite !flt_neg_finite. intros. eapply mag_lt_trans; eassumption.
  - rewrite !flt_pos_finite. intros. eapply mag_lt_trans; eassumption.
Qed.

Lemma flt_asym (x y : float) : flt x y = true -> flt y x = false.
Proof.
  destruct x as [sx | sx | | sx mx ex], y as [sy | sy | | sy my ey];
    try destruct sx; try destruct sy;
    try (cbv; congruence);
    try (intros _; reflexivity);
    try (intros H; discriminate H).
  - rewrite flt_neg_finite. intro H. apply mag_lt_asym in H.
    destruct (flt _ _) eqn:E; [| reflexivity].
    apply flt_neg_finite in E. contradiction.
  - rewrite flt_pos_finite. intro H. apply mag_lt_asym in H.
    destruct (flt _ _) eqn:E; [| reflexivity].
    apply flt_pos_finite in E. contradiction.
Qed.

(** Between numbers, "not greater" is [<=]. *)
Lemma not_lt_is_le (a b : float) :
  a <> S754_nan -> b <> S754_nan -> flt b a = false -> SFleb a b = true.
Proof.
  intros Ha Hb.
  destruct a as [sa | sa | | sa ma ea], b as [sb | sb | | sb mb eb];
    try congruence;
    try destruct sa; try destruct sb;
    try (intros _; reflexivity);
    try (let Hd := fresh in intro Hd; discriminate Hd);
    unfold flt, SFltb, SFleb, SFcompare;
    change (Pos.compare_cont Eq ma mb) with (ma ?= mb)%positive;
    change (Pos.compare_cont Eq mb ma) with (mb ?= ma)%positive;
    destruct (Z.compare_spec ea eb), (Z.compare_spec eb ea); try lia;
    try (intros _; reflexivity); try (let Hd := fresh in intro Hd; discriminate Hd);
    destruct (Pos.compare_spec ma mb), (Pos.compare_spec mb ma); try lia;
    cbn [CompOpp];
    try (intros _; reflexivity); try (let Hd := fresh in intro Hd; discriminate Hd).
Qed.

End FloatOrder.

(** ** [sorted] gives an ascending permutation

    These are facts of the insertion of [Sorting]. They carry over to
    Python's [sorted] where the two agree, on lists without NaN; the
    properties of the median use them there only. *)

Module SortingFacts.
Import Sorting.

Lemma insert_perm (x : float) (l : list float) :
  Permutation (insert x l) (x :: l).
Proof.
  induction l as [| y rest IH]; simpl.
  - apply Permutation_refl.
  - destruct (flt x y).
    + apply Permutation_refl.
    + eapply Permutation_trans.
      * apply perm_skip. exact IH.
      * apply perm_swap.
Qed.

Lemma sorted_from_perm (todo : list float) :
  forall prefix, Permutation (sorted_from prefix todo) (prefix ++ todo).
Proof.
  induction todo as [| x rest IH]; intro prefix; cbn [sorted_from].
  - rewrite app_nil_r. apply Permutation_refl.
  - eapply Permutation_trans; [apply IH |].
    eapply Permutation_trans.
    + apply Permutation_app_tail. apply insert_perm.
    + apply Permutation_middle.
Qed.

Lemma sorted_perm (l : list float) : Permutation (sorted l) l.
Proof. exact (sorted_from_perm l []). Qed.

Lemma sorted_length (l : list float) : List.length (sorted l) = List.length l.
Proof. apply Permutation_length, sorted_perm. Qed.

Lemma insert_ascending (x : float) (l : list float) :
  ascending l -> ascending (insert x l).
Proof.
  unfold ascending.
  induction l as [| y rest IH]; simpl; intro Hs.
  - constructor; [constructor | constructor].
  - inversion Hs as [| ? ? Hrest Hy]; subst.
    destruct (flt x y) eqn:Hxy.
    + constructor; [exact Hs |].
      constructor.
      * apply flt_asym. exact Hxy.
      * rewrite Forall_forall in *. intros z Hz.
        specialize (Hy z Hz).
        destruct (flt z x) eqn:Hzx; [| reflexivity].
        rewrite (flt_trans z x y Hzx Hxy) in Hy. discriminate.
    + constructor; [apply IH; exact Hrest |].
      rewrite Forall_forall in *. intros z Hz.
      apply (Permutation_in _ (insert_perm x rest)) in Hz.
      destruct Hz as [-> | Hz]; [exact Hxy | apply Hy; exact Hz].
Qed.

Lemma sorted_from_ascending (todo : list float) :
  forall prefix, ascending prefix -> ascending (sorted_from prefix todo).
Proof.
  induction todo as [| x rest IH]; intros prefix Hp; cbn [sorted_from].
  - exact Hp.
  - apply IH. apply insert_ascending. exact Hp.
Qed.

Lemma sorted_ascending (l : list float) : ascending (sorted l).
Proof. apply sorted_from_ascending. constructor. Qed.

(** On numbers an ascending list is sorted by [<=]. *)
Lemma ascending_numbers (l : list float) :
  Forall (fun x => x <> S754_nan) l ->
  ascending l ->
  StronglySorted (fun a b => SFleb a b = true) l.
Proof.
  unfold ascending. intros Hnum Hasc.
  induction Hasc as [| a rest Hrest IH Ha]; [constructor |].
  inversion Hnum as [| ? ? Hna Hnrest]; subst.
  constructor; [apply IH; exact Hnrest |].
  rewrite Forall_forall in *. intros b Hb.
  apply not_lt_is_le; [exact Hna | apply Hnrest; exact Hb | apply Ha; exact Hb].
Qed.

(** Equal elements keep their order: [0.0] and [-0.0] compare equal. *)
Lemma sorted_is_stable :
  sorted [S754_zero false; S754_zero true] = [S754_zero false; S754_zero true] /\
  sorted [S754_zero true; S754_zero false] = [S754_zero true; S754_zero false].
Proof. split; reflexivity. Qed.

End SortingFacts.

(** ** The median of a snapshot *)

Lemma mod2_even (n : nat) : Nat.eqb (Nat.modulo n 2) 0 = Nat.even n.
Proof.
  destruct (Nat.even n) eqn:E.
  - apply Nat.even_spec in E. destruct E as [k ->].
    rewrite Nat.mul_comm, Nat.Div0.mod_mul. reflexivity.
  - assert (O : Nat.odd n = true) by (unfold Nat.odd; rewrite E; reflexivity).
    apply Nat.odd_spec in O. destruct O as [k ->].
    rewrite Nat.add_comm, Nat.mul_comm, Nat.Div0.mod_add. reflexivity.
Qed.

Lemma middle_of_odd (below above : list float) (x : float) :
  List.length below = List.length above ->
  Nat.modulo (List.length (below ++ x :: above)) 2 = 1%nat /\
  Nat.div (List.length (below ++ x :: above)) 2 = List.length below.
Proof.
  intro Hlen. rewrite length_app. cbn [List.length]. rewrite <- Hlen.
  replace (List.length below + S (List.length below))%nat
    with (1 + List.length below * 2)%nat by lia.
  split.
  - rewrite Nat.Div0.mod_add. reflexivity.
  - rewrite Nat.div_add by discriminate. reflexivity.
Qed.

Lemma middle_of_even (below above : list float) (x y : float) :
  List.length below = List.length above ->
  Nat.modulo (List.length (below ++ x :: y :: above)) 2 = 0%nat /\
  Nat.div (List.length (below ++ x :: y :: above)) 2 = S (List.length below).
Proof.
  intro Hlen. rewrite length_app. cbn [List.length]. rewrite <- Hlen.
  replace (List.length below + S (S (List.length below)))%nat
    with (0 + S (List.length below) * 2)%nat by lia.
  split.
  - rewrite Nat.Div0.mod_add. reflexivity.
  - rewrite Nat.div_add by discriminate. reflexivity.
Qed.

(** NaN is ordered with nothing: two or more prices with a NaN among them
    have no arrangement sorted by [<=]. *)
Lemma nan_has_no_sorted_arrangement (s : list float) :
  In S754_nan s -> (2 <= List.length s)%nat ->
  ~ StronglySorted (fun a b => SFleb a b = true) s.
Proof.
  intros Hin Hlen Hsorted.
  induction Hsorted as [| a rest Hrest IH Ha].
  - destruct Hin.
  - rewrite Forall_forall in Ha. destruct Hin as [-> | Hin].
    + destruct rest as [| b rest']; [cbn in Hlen; lia |].
      specialize (Ha b (or_introl eq_refl)). discriminate Ha.
    + specialize (Ha S754_nan Hin).
      destruct a as [sa | sa | | sa ma ea]; try destruct sa; discriminate Ha.
Qed.

(** The non-null prices, in the order of the points. *)
Lemma non_null_prices_are_prices (points : list MarketPricePoint) :
  map Some (non_null_prices points)
  = filter (fun p => match p with Some _ => true | None => false end)
           (map price points).
Proof.
  induction points as [| point rest IH]; [reflexivity |].
  cbn [non_null_prices map filter].
  destruct (price point) as [x |]; [cbn [map]; rewrite IH |]; auto.
Qed.

(** C3. [median_price] is read off the sorted non-null prices: there is a
    list [s] holding exactly the prices of the points that have one, sorted
    by [<=] whenever these are numbers (no NaN among them), such that the
    median is null when [s] is empty, the middle value of [s] when the count
    is odd (as many prices before it as after it), and the average of the
    two middle values (float addition, then division by two) when the count
    is even. *)
Theorem median_price_of_sorted (agg : MarketAggregate) :
  exists s : list float,
    Permutation (map Some s)
                (filter (fun p => match p with Some _ => true | None => false end)
                        (map price (prices agg))) /\
    (Forall (fun x => x <> S754_nan) s ->
     StronglySorted (fun a b => SFleb a b = true) s) /\
    (s = [] -> median_price agg = None) /\
    (forall below x above,
        s = below ++ x :: above ->
        List.length below = List.length above ->
        median_price agg = Some x) /\
    (forall below x y above,
        s = below ++ x :: y :: above ->
        List.length below = List.length above ->
        median_price agg = Some (fdiv (fadd x y) (float_lit 2))).
Proof.
  exists (Sorting.sorted (non_null_prices (prices agg))).
  split.
  { rewrite <- non_null_prices_are_prices.
    apply Permutation_map, SortingFacts.sorted_perm. }
  split.
  { intro Hnum.
    apply SortingFacts.ascending_numbers;
      [exact Hnum | apply SortingFacts.sorted_ascending]. }
  unfold median_price.
  split; [intros ->; reflexivity |].
  split.
  - intros below x above -> Hlen.
    destruct (middle_of_odd below above x Hlen) as [Hmod Hdiv].
    remember (below ++ x :: above) as l eqn:Hs.
    destruct l as [| first rest]; [destruct below; discriminate Hs |].
    cbv beta iota zeta. rewrite Hmod, Hdiv. cbn [Nat.eqb]. unfold item.
    rewrite Hs, nth_middle. reflexivity.
  - intros below x y above -> Hlen.
    destruct (middle_of_even below above x y Hlen) as [Hmod Hdiv].
    remember (below ++ x :: y :: above) as l eqn:Hs.
    destruct l as [| first rest]; [destruct below; discriminate Hs |].
    cbv beta iota zeta. rewrite Hmod, Hdiv. cbn [Nat.eqb]. unfold item.
    rewrite Hs.
    replace (S (List.length below) - 1)%nat with (List.length below) by lia.
    rewrite nth_middle.
    change (below ++ x :: y :: above) with (below ++ [x] ++ y :: above).
    rewrite app_assoc.
    replace (S (List.length below)) with (List.length (below ++ [x]))
      by (rewrite length_app; cbn [List.length]; lia).
    rewrite nth_middle. reflexivity.
Qed.

(** The three prices of the service's test, out of order, and two of them
    with the third provider failed: the arrangement is sorted, the median
    of three is the price with one price on either side, the median of two
    the average of both. *)
Lemma median_price_of_sorted_witness :
  let high := Fixtures.num "64000.12" in
  let low := Fixtures.num "63950.55" in
  let mid := Fixtures.num "63975.10" in
  (exists s : list float,
      Permutation (map Some s) [Some high; Some low; Some mid] /\
      StronglySorted (fun a b => SFleb a b = true) s /\
      forall below x above,
        s = below ++ x :: above ->
        List.length below = List.length above ->
        median_price (Fixtures.snapshot [Some high; Some low; Some mid]) = Some x) /\
  (exists s : list float,
      Permutation (map Some s) [Some high; Some low] /\
      StronglySorted (fun a b => SFleb a b = true) s /\
      forall below x y above,
        s = below ++ x :: y :: above ->
        List.length below = List.length above ->
        median_price (Fixtures.snapshot [Some high; None; Some low])
        = Some (fdiv (fadd x y) (float_lit 2))).
Proof.
  intros high low mid. split.
  - destruct (median_price_of_sorted
                (Fixtures.snapshot [Some high; Some low; Some mid]))
      as (s & Hperm & Hsorted & _ & Hodd & _).
    exists s. split; [exact Hperm |]. split; [| exact Hodd].
    apply Hsorted. apply Forall_forall. intros x Hx.
    apply (in_map Some) in Hx. apply (Permutation_in _ Hperm) in Hx.
    destruct Hx as [Hx | [Hx | [Hx | []]]]; injection Hx as <-; discriminate.
  - destruct (median_price_of_sorted
                (Fixtures.snapshot [Some high; None; Some low]))
      as (s & Hperm & Hsorted & _ & _ & Heven).
    exists s. split; [exact Hperm |]. split; [| exact Heven].
    apply Hsorted. apply Forall_forall. intros x Hx.
    apply (in_map Some) in Hx. apply (Permutation_in _ Hperm) in Hx.
    destruct Hx as [Hx | [Hx | []]]; injection Hx as <-; discriminate.
Defined.

(** ** Inversion of the error monad *)

Lemma bind_ok {A B} (r : result A) (k : A -> result B) (b : B) :
  bind r k = Ok b -> exists a, r = Ok a /\ k a = Ok b.
Proof.
  destruct r as [a | e]; simpl; intro H.
  - exists a. split; [reflexivity | exact H].
  - discriminate H.
Qed.

Ltac inv_bind H :=
  let a := fresh "v" in
  let Ha := fresh "Hv" in
  apply bind_ok in H; destruct H as (a & Ha & H).

Ltac inv_binds H :=
  repeat (apply bind_ok in H;
          let a := fresh "v" in
          let Ha := fresh "Hv" in
          destruct H as (a & Ha & H)).

(** ** The market snapshot *)

Section MarketFacts.

Context {rt : Runtime}.
Variable self : Settings.
Variable get_json : Request -> result json.

Lemma init_point_fields src sym p c v rawv pt :
  MarketPricePoint_init src sym p c v rawv = Ok pt ->
  source pt = src /\ symbol pt = sym /\ price pt = p /\
  change_24h pt = c /\ volume_24h pt = v.
Proof.
  unfold MarketPricePoint_init. intro H. inv_bind H.
  injection H as <-. repeat split.
Qed.

Lemma fetch_binance_tag base quote pt :
  _fetch_binance self get_json base quote = Ok pt ->
  source pt = "binance" /\ symbol pt = (base ++ quote)%string.
Proof.
  unfold _fetch_binance. intro H. inv_binds H.
  injection H as <-. split; reflexivity.
Qed.

Lemma fetch_bybit_tag base quote pt :
  _fetch_bybit self get_json base quote = Ok pt ->
  source pt = "bybit" /\ symbol pt = (base ++ quote)%string.
Proof.
  unfold _fetch_bybit. intro H.
  do 4 inv_bind H.
  destruct (negb (truthy _)); [discriminate H |].
  inv_binds H.
  injection H as <-. split; reflexivity.
Qed.

Lemma fetch_coincap_tag base quote pt :
  _fetch_coincap self get_json base quote = Ok pt ->
  source pt = "coincap" /\ symbol pt = (base ++ quote)%string.
Proof.
  unfold _fetch_coincap. intro H. inv_binds H.
  injection H as <-. split; reflexivity.
Qed.

Lemma collect_slot provider sym task :
  (forall pt, task = Ok pt -> source pt = provider) ->
  slot_of provider sym task (collect sym task).
Proof.
  intro Htag. destruct task as [pt | e]; simpl.
  - split; [reflexivity | apply Htag; reflexivity].
  - reflexivity.
Qed.

End MarketFacts.

(** C1. Whatever the three upstreams answer, [fetch_symbol] returns a
    snapshot with exactly three price points, in the order Binance, Bybit,
    CoinCap. A slot holds the provider's point, tagged with the provider's
    name, when its task returned one; when the task raised, of whatever class
    the exception is, the slot holds a point tagged "error" with null numbers
    and the exception's message under "message" in [raw]. *)
Theorem fetch_symbol_three_slots
        {rt : Runtime} (self : Settings) (get_json : Request -> result json)
        (now : Z) (base_symbol quote_symbol : string) :
  let base := str_upper base_symbol in
  let quote := str_upper quote_symbol in
  let symbol := (base ++ quote)%string in
  exists p1 p2 p3 : MarketPricePoint,
    prices (fetch_symbol self get_json now base_symbol quote_symbol)
      = [p1; p2; p3] /\
    slot_of "binance" symbol (_fetch_binance self get_json base quote) p1 /\
    slot_of "bybit" symbol (_fetch_bybit self get_json base quote) p2 /\
    slot_of "coincap" symbol (_fetch_coincap self get_json base quote) p3.
Proof.
  intros base quote symbol.
  eexists _, _, _. split; [reflexivity |].
  repeat split; apply collect_slot; intros pt Hpt.
  - apply fetch_binance_tag in Hpt. tauto.
  - apply fetch_bybit_tag in Hpt. tauto.
  - apply fetch_coincap_tag in Hpt. tauto.
Qed.

(** C10. In the snapshot [fetch_symbol] returns, the base and quote symbols
    are the upper-cased arguments, the snapshot's symbol is their
    concatenation, and every price point, the error placeholders included,
    carries that symbol. *)
Theorem fetch_symbol_symbols
        {rt : Runtime} (self : Settings) (get_json : Request -> result json)
        (now : Z) (base quote : string) :
  let agg := fetch_symbol self get_json now base quote in
  base_symbol agg = str_upper base /\
  quote_symbol agg = str_upper quote /\
  agg_symbol agg = (base_symbol agg ++ quote_symbol agg)%string /\
  Forall (fun p => symbol p = agg_symbol agg) (prices agg).
Proof.
  simpl. repeat split.
  unfold gather. repeat constructor.
  - destruct (_fetch_binance _ _ _ _) as [pt | e] eqn:H; simpl;
      [apply fetch_binance_tag in H; tauto | reflexivity].
  - destruct (_fetch_bybit _ _ _ _) as [pt | e] eqn:H; simpl;
      [apply fetch_bybit_tag in H; tauto | reflexivity].
  - destruct (_fetch_coincap _ _ _ _) as [pt | e] eqn:H; simpl;
      [apply fetch_coincap_tag in H; tauto | reflexivity].
Qed.

(** ** Numeric coercion *)

Section ToFloatFacts.

Context {rt : Runtime}.

Lemma to_float_none : _to_float JNull = Ok None.
Proof. reflexivity. Qed.

Lemma to_float_empty : _to_float (JStr "") = Ok None.
Proof. reflexivity. Qed.

Lemma to_float_float (x : float) : _to_float (JFloat x) = Ok (Some x).
Proof. reflexivity. Qed.

Lemma to_float_list (l : list json) : _to_float (JList l) = Ok None.
Proof. reflexivity. Qed.

Lemma to_float_dict (d : dict) : _to_float (JDict d) = Ok None.
Proof. reflexivity. Qed.

Lemma to_float_bool (b : bool) :
  _to_float (JBool b) = Ok (Some (float_lit (if b then 1 else 0))).
Proof. reflexivity. Qed.

Lemma to_float_str (s : string) :
  s <> "" ->
  _to_float (JStr s) = Ok (float_of_str s).
Proof.
  intro Hs. unfold _to_float. simpl.
  destruct (String.eqb_spec s "") as [-> | _]; [contradiction |].
  simpl. destruct (float_of_str s); reflexivity.
Qed.

Lemma to_float_int_in_range (n : Z) (x : float) :
  float_of_int n = Ok x -> _to_float (JInt n) = Ok (Some x).
Proof. intro H. unfold _to_float. simpl. rewrite H. reflexivity. Qed.

(** Away from integers too large for a double, the coercion returns. *)
Lemma to_float_returns (value : json) :
  (forall n, value = JInt n -> is_ok (float_of_int n) = true) ->
  exists r, _to_float value = Ok r.
Proof.
  intro Hint. destruct value as [| b | n | x | s | l | d].
  - eexists; reflexivity.
  - eexists; reflexivity.
  - specialize (Hint n eq_refl).
    destruct (float_of_int n) as [x | e] eqn:Hn; [| discriminate Hint].
    exists (Some x). apply to_float_int_in_range. exact Hn.
  - eexists; reflexivity.
  - destruct (String.eqb_spec s "") as [-> | Hs].
    + eexists; reflexivity.
    + eexists. apply to_float_str. exact Hs.
  - eexists; reflexivity.
  - eexists; reflexivity.
Qed.

End ToFloatFacts.

(** C9. [_to_float] is not total: on the integer [10^400], which a JSON body
    can spell out and [response.json()] decodes to an [int], [float(value)]
    raises [OverflowError], a class the [except] clause does not list, so the
    call raises instead of returning null. *)
Theorem to_float_raises_on_huge_int {rt : Runtime} :
  _to_float (JInt (10 ^ 400))
  = Raise (mk_exn OverflowError "int too large to convert to float").
Proof. vm_compute. reflexivity. Qed.

(** The same value in a ticker: the Binance task raises and its slot holds
    the error placeholder. *)
Lemma binance_huge_price_slot :
  let get_json := fun _ : Request => Ok (JDict [("lastPrice", JInt (10 ^ 400))]) in
  nth_error
    (prices (fetch_symbol (rt := ascii_runtime) default_settings get_json 0
                          "BTC" "USDT")) 0
  = Some (mk_point "error" "BTCUSDT" None None None
            (Some [("message", JStr "int too large to convert to float")])).
Proof. vm_compute. reflexivity. Qed.

(** ** Bybit: the change percentage *)

Section BybitFacts.

Context {rt : Runtime}.
Variable self : Settings.
Variable get_json : Request -> result json.

Lemma lookup_some_truthy (d : dict) (k : string) (v : json) :
  dict_lookup d k = Some v -> truthy (JDict d) = true.
Proof. destruct d; [discriminate | reflexivity]. Qed.

End BybitFacts.

(** C4. When the Bybit response is an object whose [result.list] starts with
    an object [d] that has the key [price24hPcnt] with a value [_to_float]
    turns into the float [pct], and the price and turnover fields coerce as
    well, [_fetch_bybit] returns a point, and its [change_24h] is the float
    product [pct * 100]. *)
Theorem bybit_change_is_pct_times_100
        {rt : Runtime} (self : Settings) (get_json : Request -> result json)
        (base quote : string) (payload res : json) (d : dict) (rest : list json)
        (raw_pct : json) (pct : float) (p v : option float) :
  let symbol := (base ++ quote)%string in
  get_json (mk_request (bybit_base_url self ++ "/v5/market/tickers")%string
                       [("category", "spot"); ("symbol", symbol)] [])
    = Ok payload ->
  py_get payload "result" (JDict []) = Ok res ->
  py_get res "list" (JList []) = Ok (JList (JDict d :: rest)) ->
  dict_lookup d "price24hPcnt" = Some raw_pct ->
  _to_float raw_pct = Ok (Some pct) ->
  (x <- py_get (JDict d) "lastPrice" JNull ;; _to_float x) = Ok p ->
  (x <- py_get (JDict d) "turnover24h" JNull ;; _to_float x) = Ok v ->
  _fetch_bybit self get_json base quote
  = Ok (mk_point "bybit" symbol p (Some (fmul pct (float_lit 100))) v (Some d)).
Proof.
  intros symbol Hget Hres Hlist Hpct Hconv Hp Hv.
  unfold _fetch_bybit. fold symbol.
  rewrite Hget. cbn [bind]. rewrite Hres. cbn [bind]. rewrite Hlist.
  cbn [bind].
  change (truthy (JList (JDict d :: rest))) with true.
  cbn [bind py_item0].
  rewrite (lookup_some_truthy d _ _ Hpct). cbn [negb].
  rewrite Hp. cbn [bind].
  unfold py_contains. rewrite Hpct. cbn [bind].
  unfold py_get at 1. rewrite Hpct. cbn [bind]. rewrite Hconv. cbn [bind].
  rewrite Hv. cbn [bind].
  reflexivity.
Qed.

(** The ticker of the service's own test: raw "0.025" is reported as 2.5. *)
Lemma bybit_change_is_pct_times_100_witness :
  let d := [("lastPrice", JStr "63950.55"); ("price24hPcnt", JStr "0.025");
            ("turnover24h", JStr "420000000.0")] in
  let payload := JDict [("result", JDict [("list", JList [JDict d])])] in
  let get_json := fun _ : Request => Ok payload in
  exists pt,
    _fetch_bybit (rt := ascii_runtime) default_settings get_json "BTC" "USDT"
      = Ok pt /\
    change_24h pt = AsciiRuntime.parse_float "2.5".
Proof.
  intros d payload get_json.
  eexists. split.
  - apply (bybit_change_is_pct_times_100 (rt := ascii_runtime)
             default_settings get_json "BTC" "USDT" payload
             (JDict [("list", JList [JDict d])]) d []
             (JStr "0.025"));
      reflexivity.
  - vm_compute. reflexivity.
Defined.

(** Conversely, a point the Bybit task returns was built from the first
    element of the response's list, and a numeric [price24hPcnt] there is
    what its [change_24h] is a hundred times of. *)
Lemma bybit_returned_point
      {rt : Runtime} (self : Settings) (get_json : Request -> result json)
      (base quote : string) (pt : MarketPricePoint) :
  _fetch_bybit self get_json base quote = Ok pt ->
  exists payload res d rest,
    get_json (mk_request (bybit_base_url self ++ "/v5/market/tickers")%string
                         [("category", "spot"); ("symbol", (base ++ quote)%string)]
                         [])
      = Ok payload /\
    py_get payload "result" (JDict []) = Ok res /\
    py_get res "list" (JList []) = Ok (JList (JDict d :: rest)) /\
    raw pt = Some d /\
    forall raw_pct pct,
      dict_lookup d "price24hPcnt" = Some raw_pct ->
      _to_float raw_pct = Ok (Some pct) ->
      change_24h pt = Some (fmul pct (float_lit 100)).
Proof.
  unfold _fetch_bybit. intro H.
  apply bind_ok in H. destruct H as (payload & Hpayload & H).
  apply bind_ok in H. destruct H as (res & Hres & H).
  apply bind_ok in H. destruct H as (items & Hitems & H).
  apply bind_ok in H. destruct H as (first & Hfirst & H).
  destruct (negb (truthy first)) eqn:Htruthy; [discriminate H |].
  apply bind_ok in H. destruct H as (p & Hp & H).
  destruct first as [| b | n | x | s | l | d]; try discriminate Hp.
  destruct (truthy items) eqn:Hnonempty; [| discriminate Hfirst].
  destruct items as [| b | n | x | s | l | d'];
    try discriminate Hnonempty; try discriminate Hfirst.
  - destruct s; discriminate Hfirst.
  - destruct l as [| first' rest]; [discriminate Hnonempty |].
    injection Hfirst as ->.
    exists payload, res, d, rest.
    repeat (split; [assumption |]).
    apply bind_ok in H. destruct H as (has_pct & Hhas & H).
    apply bind_ok in H. destruct H as (change & Hchange & H).
    apply bind_ok in H. destruct H as (volume & Hvolume & H).
    unfold MarketPricePoint_init, validate_raw in H. cbn [bind] in H.
    injection H as <-. cbn [raw change_24h].
    split; [reflexivity |].
    intros raw_pct pct Hraw Hconv.
    unfold py_contains in Hhas. rewrite Hraw in Hhas. injection Hhas as <-.
    unfold py_get in Hchange. rewrite Hraw in Hchange. cbn [bind] in Hchange.
    rewrite Hconv in Hchange. cbn [bind] in Hchange. injection Hchange as <-.
    reflexivity.
Qed.

(** ** CoinCap: which asset is reported *)

Section CoincapFacts.

Context {rt : Runtime}.




End CoincapFacts.






(** A lower-case symbol matches too, and an unmatched request falls back
    to the first entry. *)
Lemma coincap_examples :
  let eth := JDict [("symbol", JStr "ETH")] in
  let btc := JDict [("symbol", JStr "btc")] in
  select_asset (rt := ascii_runtime) "BTC" (JList [eth; btc]) = Ok btc /\
  select_asset (rt := ascii_runtime) "SOL" (JList [eth; btc]) = Ok eth /\
  select_asset (rt := ascii_runtime) "BTC" (JList [])
  = Raise (mk_exn ValueError "CoinCap returned no asset data for BTC").
Proof. repeat split. Qed.

(** The selected entry is the one the returned point is built from. *)
Lemma fetch_coincap_reports_selected
      {rt : Runtime} (self : Settings) (get_json : Request -> result json)
      (base quote : string) (pt : MarketPricePoint) :
  _fetch_coincap self get_json base quote = Ok pt ->
  exists payload data m,
    py_get payload "data" (JList []) = Ok data /\
    select_asset base data = Ok (JDict m) /\
    raw pt = Some m.
Proof.
  unfold _fetch_coincap. intro H.
  do 6 inv_bind H.
  unfold MarketPricePoint_init in H. inv_bind H.
  injection H as <-. cbn [raw].
  destruct v1 as [| b | n | x | s | l | m];
    try discriminate Hv5; try discriminate Hv2.
  injection Hv5 as <-.
  exists v, v0, m. repeat split; assumption.
Qed.

(** ** The news snapshot *)

Section NewsFacts.

Context {rt : Runtime}.
Variable get_soup : Request -> result Soup.
Variable now : Z.

Lemma fetch_target_source (tgt : ScrapeTarget) (cap : Z) (feed : NewsFeed) :
  _fetch_target get_soup now tgt cap = Ok feed -> feed_source feed = name tgt.
Proof.
  unfold _fetch_target, _fetch_cryptopanic_rss, _scrape_generic.
  destruct (String.eqb (name tgt) "CryptoPanic"); intro H;
    do 2 inv_bind H; injection H as <-; reflexivity.
Qed.

Lemma fetch_all_over_length (targets : list ScrapeTarget) (cap : Z) :
  List.length (feeds (fetch_all_over get_soup now targets cap))
  = List.length targets.
Proof.
  unfold fetch_all_over, gather. cbn [feeds].
  rewrite length_map, length_combine, length_map. apply Nat.min_id.
Qed.

(** Feed by feed, in the order of the targets. *)
Lemma fetch_all_over_feeds (targets : list ScrapeTarget) (cap : Z) :
  feeds (fetch_all_over get_soup now targets cap)
  = map (fun tgt => match _fetch_target get_soup now tgt cap with
                    | Ok feed => feed
                    | Raise e => failed_feed now tgt e
                    end) targets.
Proof.
  unfold fetch_all_over, gather. cbn [feeds].
  induction targets as [| tgt rest IH]; [reflexivity |].
  cbn [map combine fst snd]. rewrite IH. reflexivity.
Qed.

End NewsFacts.

(** C2. For every per-source limit, [fetch_all] returns one feed per
    configured target, eleven in all and in the order of [SCRAPE_TARGETS],
    each bearing its target's name; and the feed of a target whose fetch
    raised holds exactly the one synthetic article: title "Failed to
    retrieve articles", the placeholder URL, the exception's message as
    summary and under "error" in the metadata, and no publication date. *)
Theorem fetch_all_one_feed_per_target
        {rt : Runtime} (get_soup : Request -> result Soup) (now : Z)
        (limit_per_source : Z) :
  let agg := fetch_all get_soup now limit_per_source in
  List.length (feeds agg) = 11%nat /\
  Forall2
    (fun tgt feed =>
       feed_source feed = name tgt /\
       forall e, _fetch_target get_soup now tgt limit_per_source = Raise e ->
                 items feed = [synthetic_article tgt (str_exn e)])
    SCRAPE_TARGETS (feeds agg).
Proof.
  intro agg. subst agg. split.
  - unfold fetch_all. rewrite fetch_all_over_length. reflexivity.
  - unfold fetch_all. rewrite fetch_all_over_feeds.
    induction SCRAPE_TARGETS as [| tgt rest IH]; cbn [map]; constructor.
    + destruct (_fetch_target get_soup now tgt limit_per_source)
        as [feed | e] eqn:Hfetch.
      * split; [eapply fetch_target_source; eassumption | discriminate].
      * split; [reflexivity |].
        intros e' He'. injection He' as <-. reflexivity.
    + exact IH.
Qed.

(** With no target reachable the snapshot still has its eleven feeds, each
    with the synthetic article. *)
Lemma fetch_all_one_feed_per_target_witness :
  let down := fun _ : Request => raise HTTPError "Connection refused" in
  let agg := fetch_all (rt := ascii_runtime) down 0 6 in
  List.length (feeds agg) = 11%nat /\
  Forall2 (fun tgt feed =>
             feed_source feed = name tgt /\
             items feed = [synthetic_article tgt "Connection refused"])
          SCRAPE_TARGETS (feeds agg).
Proof.
  intros down agg.
  destruct (fetch_all_one_feed_per_target (rt := ascii_runtime) down 0 6)
    as [Hlen Hall].
  split; [exact Hlen |].
  eapply Forall2_impl; [| exact Hall].
  intros tgt feed [Hsrc Hfail]. split; [exact Hsrc |].
  apply (Hfail (mk_exn HTTPError "Connection refused")).
  unfold _fetch_target, _fetch_cryptopanic_rss, _scrape_generic.
  destruct (String.eqb (name tgt) "CryptoPanic"); reflexivity.
Defined.

(** ** The per-source cap *)

Section CapFacts.

Context {rt : Runtime}.

Lemma len_app_one {A} (l : list A) (x : A) : len (l ++ [x]) = len l + 1.
Proof. unfold len. rewrite length_app. simpl. lia. Qed.

Lemma slice_to_len {A} (l : list A) (n : Z) :
  0 <= n -> len (slice_to l n) <= n.
Proof.
  intro Hn. unfold slice_to, len.
  destruct (Z.leb_spec 0 n); [| lia].
  rewrite length_firstn. lia.
Qed.

(** The RSS loop stops as soon as the list reaches the cap. *)
Lemma rss_pass_len (src : string) (lim : Z) (entries : list ItemTag) :
  forall acc seen its,
    rss_pass src lim entries acc seen = Ok its ->
    len acc < lim ->
    len its <= lim.
Proof.
  induction entries as [| entry rest IH]; intros acc seen its H Hacc.
  - injection H as <-. lia.
  - cbn [rss_pass] in H.
    destruct (item_title entry) as [ttl |]; [| eapply IH; eassumption].
    destruct (item_link entry) as [link |]; [| eapply IH; eassumption].
    destruct (_ || _ || _); [eapply IH; eassumption |].
    inv_bind H.
    destruct (Z.leb_spec lim (len (acc ++ [v]))) as [Hfull | Hroom].
    + injection H as <-. rewrite len_app_one. lia.
    + eapply IH; eassumption.
Qed.

Variable get_soup : Request -> result Soup.
Variable now : Z.

Lemma fetch_target_capped (tgt : ScrapeTarget) (cap : Z) (feed : NewsFeed) :
  1 <= Z.min cap (limit tgt) ->
  _fetch_target get_soup now tgt cap = Ok feed ->
  len (items feed) <= Z.min cap (limit tgt).
Proof.
  intros Hmin. unfold _fetch_target, _fetch_cryptopanic_rss, _scrape_generic.
  destruct (String.eqb (name tgt) "CryptoPanic"); intro H.
  - do 2 inv_bind H. injection H as <-. cbn [items].
    eapply rss_pass_len; [eassumption |]. unfold len. simpl. lia.
  - inv_bind H. inv_bind H. injection H as <-. cbn [items].
    unfold _extract_articles in Hv0. inv_bind Hv0. destruct v1 as [arts seen].
    inv_bind Hv0. injection Hv0 as <-.
    apply slice_to_len. lia.
Qed.

End CapFacts.

(** C6. For a requested cap of at least 1 (the endpoint admits 1 to 12) and
    targets whose configured maximum is at least 1 (each of [SCRAPE_TARGETS]
    has 6), every feed of the snapshot holds at most min(cap, the target's
    maximum) articles: the RSS feed, the scraped feeds (both tiers together)
    and the one-article feed of a failed target alike. *)
Theorem feeds_capped
        {rt : Runtime} (get_soup : Request -> result Soup) (now : Z)
        (targets : list ScrapeTarget) (cap : Z) :
  1 <= cap ->
  Forall (fun tgt => 1 <= limit tgt) targets ->
  Forall2 (fun tgt feed => len (items feed) <= Z.min cap (limit tgt))
          targets (feeds (fetch_all_over get_soup now targets cap)).
Proof.
  intros Hcap Hlimits. rewrite fetch_all_over_feeds.
  induction Hlimits as [| tgt rest Htgt Hrest IH]; cbn [map]; constructor.
  - destruct (_fetch_target get_soup now tgt cap) as [feed | e] eqn:Hfetch.
    + eapply fetch_target_capped; [lia | eassumption].
    + unfold failed_feed, len. simpl. lia.
  - exact IH.
Qed.

(** The configured targets, with a two-item RSS document and a page of three
    structured articles, asked for two articles per source. *)
Lemma feeds_capped_witness :
  let page :=
    mk_soup
      [ mk_article_tag [mk_anchor (Some "/a") "First crypto update"] None None;
        mk_article_tag [mk_anchor (Some "/b") "Second crypto insight"] None None;
        mk_article_tag [mk_anchor (Some "/c") "Third crypto story"] None None ]
      []
      [ mk_item (Some "Market sentiment flips")
                (Some "https://cryptopanic.com/news/1") None None None;
        mk_item (Some "Rates decision looms")
                (Some "https://cryptopanic.com/news/2") None None None;
        mk_item (Some "Miners capitulate")
                (Some "https://cryptopanic.com/news/3") None None None ] in
  let get_soup := fun _ : Request => Ok page in
  Forall2 (fun tgt feed => len (items feed) <= Z.min 2 (limit tgt))
          SCRAPE_TARGETS
          (feeds (fetch_all (rt := ascii_runtime) get_soup 0 2)).
Proof.
  intros page get_soup.
  apply (feeds_capped (rt := ascii_runtime) get_soup 0 SCRAPE_TARGETS 2).
  - lia.
  - repeat constructor; simpl; lia.
Defined.

(** Why the cap is taken from 1 on. [fetch_all] called directly with a cap
    of 0, which the endpoint never passes on, gets one article from the RSS
    loop: it appends before it tests the cap. *)
Lemma cap_zero_rss_feed_exceeds :
  let tgt := target "CryptoPanic" "https://cryptopanic.com/news/rss/" in
  let doc :=
    mk_soup [] []
      [ mk_item (Some "Market sentiment flips")
                (Some "https://cryptopanic.com/news/market-sentiment")
                (Some "Mon, 20 May 2024 15:20:00 +0000") None
                (Some "Quick summary.") ] in
  let get_soup := fun _ : Request => Ok doc in
  In tgt SCRAPE_TARGETS /\
  exists feed,
    _fetch_target (rt := ascii_runtime) get_soup 0 tgt 0 = Ok feed /\
    len (items feed) = 1 /\
    ~ len (items feed) <= Z.min 0 (limit tgt).
Proof.
  intros tgt doc get_soup. split.
  - unfold SCRAPE_TARGETS. do 10 right. left. reflexivity.
  - eexists. split; [vm_compute; reflexivity |].
    split; [reflexivity |]. vm_compute. intro H. apply H. reflexivity.
Qed.

(** ** Duplicates among structured articles *)

(** A URL object is never found in the set of strings. *)
Lemma url_never_in_seen (seen : list string) (u : Url) :
  set_contains seen (PUrl u) = false.
Proof. induction seen as [| s rest IH]; [reflexivity | exact IH]. Qed.

(** Hence the structured tier appends every article it builds. *)
Lemma structured_pass_appends_twice
      {rt : Runtime} (base_url src : string) (lim : Z)
      (element : ArticleTag) (a : NewsArticle) :
  _build_article_from_element element base_url src = Ok (Some a) ->
  2 <= lim ->
  _extract_articles base_url src lim (mk_soup [element; element] [] [])
  = Ok [a; a].
Proof.
  intros Hbuild Hlim. unfold _extract_articles. cbn [find_all_article select_headlines].
  cbn [structured_pass]. rewrite Hbuild. cbn [bind].
  rewrite !url_never_in_seen. cbn [negb app].
  destruct (Z.leb_spec lim (len [a])) as [Hbad | _];
    [unfold len in Hbad; simpl in Hbad; lia |].
  cbn [bind]. rewrite !url_never_in_seen. cbn [negb app].
  assert (Hslice : slice_to [a; a] lim = [a; a]).
  { unfold slice_to. destruct (Z.leb_spec 0 lim); [| lia].
    apply firstn_all2. simpl. lia. }
  destruct (Z.leb_spec lim (len [a; a])) as [Hfull | Hroom].
  - cbn [bind]. destruct (Z.ltb_spec (len [a; a]) lim) as [Hlt | _]; [lia |].
    cbn [bind]. rewrite Hslice. reflexivity.
  - cbn [bind]. destruct (Z.ltb_spec (len [a; a]) lim) as [_ | Hge]; [| lia].
    cbn [fallback_pass bind]. rewrite Hslice. reflexivity.
Qed.

(** C7. Two [<article>] elements that link to the same page, scraped with
    room for six articles: both are kept, so the feed carries one URL
    twice. The test [item.url not in seen] asks for a URL object in a set
    that holds the [str] form of the URLs and so never finds it. *)
Theorem duplicate_structured_articles_kept :
  let element :=
    mk_article_tag [mk_anchor (Some "https://example.com/story")
                              "Crypto surges today"] None None in
  let a := mk_article "Example" "Crypto surges today"
                      (mk_url "https://example.com/story") None None [] in
  _extract_articles (rt := ascii_runtime) "https://example.com/" "Example" 6
                    (mk_soup [element; element] [] [])
  = Ok [a; a].
Proof. vm_compute. reflexivity. Qed.

(** The fallback tier does compare strings, and skips a URL the structured
    tier has collected. *)
Lemma fallback_skips_collected_url :
  let element :=
    mk_article_tag [mk_anchor (Some "https://example.com/story")
                              "Crypto surges today"] None None in
  let again := mk_anchor (Some "https://example.com/story") "Crypto surges today" in
  let a := mk_article "Example" "Crypto surges today"
                      (mk_url "https://example.com/story") None None [] in
  _extract_articles (rt := ascii_runtime) "https://example.com/" "Example" 6
                    (mk_soup [element] [again] [])
  = Ok [a].
Proof. vm_compute. reflexivity. Qed.

(** ** What the HTML extraction lets through *)

Section FilterFacts.

Context {rt : Runtime}.
Variables (base_url src : string) (lim : Z).

Lemma sourced_incl (pool pool' : list Anchor) (a : NewsArticle) :
  incl pool pool' -> sourced base_url pool a -> sourced base_url pool' a.
Proof.
  intros Hincl (anchor & Hin & Hacc). exists anchor.
  split; [apply Hincl; exact Hin | exact Hacc].
Qed.

Lemma build_article_sourced (element : ArticleTag) (a : NewsArticle) :
  _build_article_from_element element base_url src = Ok (Some a) ->
  sourced base_url (tag_anchors element) a.
Proof.
  unfold _build_article_from_element, find_anchor_with_href.
  destruct (find _ (tag_anchors element)) as [anchor |] eqn:Hfind;
    [| discriminate].
  apply find_some in Hfind. destruct Hfind as [Hin Hhref].
  destruct (a_href anchor) as [href |] eqn:Ha; [| discriminate Hhref].
  destruct (String.eqb (a_text anchor) "" || (len_str (a_text anchor) <? 5))
    eqn:Hshort; [discriminate |].
  apply orb_false_elim in Hshort. destruct Hshort as [_ Hlen].
  apply Z.ltb_ge in Hlen.
  destruct (startswith (urljoin base_url href) "http") eqn:Hhttp;
    [| discriminate].
  cbn [negb]. unfold NewsArticle_init.
  destruct (validate_http_url (urljoin base_url href)) as [u |] eqn:Hu;
    [| discriminate].
  cbn [bind]. intro H. injection H as <-.
  exists anchor. split; [exact Hin |].
  exists href. cbn [title url]. repeat split; assumption.
Qed.

Lemma structured_pass_sourced (pool : list Anchor) (elements : list ArticleTag) :
  forall articles seen arts seen',
    (forall e, In e elements -> incl (tag_anchors e) pool) ->
    Forall (sourced base_url pool) articles ->
    structured_pass base_url src lim elements articles seen = Ok (arts, seen') ->
    Forall (sourced base_url pool) arts.
Proof.
  induction elements as [| element rest IH];
    intros articles seen arts seen' Hpool Hall H.
  - injection H as <- <-. exact Hall.
  - cbn [structured_pass] in H. inv_bind H.
    assert (Hrest : forall e, In e rest -> incl (tag_anchors e) pool)
      by (intros e He; apply Hpool; right; exact He).
    assert (Hnew : forall a, v = Some a -> sourced base_url pool a).
    { intros a ->. eapply sourced_incl.
      - apply Hpool. left. reflexivity.
      - apply build_article_sourced. exact Hv. }
    destruct v as [a |].
    + destruct (negb (set_contains seen (PUrl (url a)))).
      * assert (Hall' : Forall (sourced base_url pool) (articles ++ [a])).
        { apply Forall_app. split; [exact Hall |].
          constructor; [apply Hnew; reflexivity | constructor]. }
        destruct (lim <=? len (articles ++ [a])).
        -- injection H as <- <-. exact Hall'.
        -- eapply IH; eassumption.
      * destruct (lim <=? len articles).
        -- injection H as <- <-. exact Hall.
        -- eapply IH; eassumption.
    + destruct (lim <=? len articles).
      * injection H as <- <-. exact Hall.
      * eapply IH; eassumption.
Qed.

Lemma fallback_pass_sourced (pool : list Anchor) (anchors : list Anchor) :
  forall articles seen arts,
    incl anchors pool ->
    Forall (sourced base_url pool) articles ->
    fallback_pass base_url src lim anchors articles seen = Ok arts ->
    Forall (sourced base_url pool) arts.
Proof.
  induction anchors as [| anchor rest IH];
    intros articles seen arts Hpool Hall H.
  - injection H as <-. exact Hall.
  - assert (Hrest : incl rest pool)
      by (intros x Hx; apply Hpool; right; exact Hx).
    cbn [fallback_pass] in H.
    destruct (a_href anchor) as [href |] eqn:Ha; [| eapply IH; eassumption].
    destruct (String.eqb href "" || String.eqb (a_text anchor) ""
              || (len_str (a_text anchor) <? 5)) eqn:Hshort;
      [eapply IH; eassumption |].
    apply orb_false_elim in Hshort. destruct Hshort as [_ Hlen].
    apply Z.ltb_ge in Hlen.
    destruct (startswith (urljoin base_url href) "http") eqn:Hhttp;
      cbn [negb] in H; [| eapply IH; eassumption].
    destruct (set_contains seen (PStr (urljoin base_url href)));
      [eapply IH; eassumption |].
    unfold NewsArticle_init in H.
    destruct (validate_http_url (urljoin base_url href)) as [u |] eqn:Hu;
      [| discriminate H].
    cbn [bind] in H.
    match type of H with
    | context [articles ++ [?a]] =>
        assert (Hall' : Forall (sourced base_url pool) (articles ++ [a]))
    end.
    { apply Forall_app. split; [exact Hall |].
      constructor; [| constructor].
      exists anchor. split; [apply Hpool; left; reflexivity |].
      exists href. cbn [title url]. repeat split; assumption. }
    destruct (lim <=? len _).
    + injection H as <-. exact Hall'.
    + eapply IH; eassumption.
Qed.

Lemma slice_to_Forall {A} (P : A -> Prop) (l : list A) (n : Z) :
  Forall P l -> Forall P (slice_to l n).
Proof.
  intro H. unfold slice_to.
  assert (Hfirst : forall k, Forall P (firstn k l)).
  { intro k. rewrite <- (firstn_skipn k l) in H.
    apply Forall_app in H. exact (proj1 H). }
  destruct (0 <=? n); apply Hfirst.
Qed.

(** A title under five characters never makes an article. *)
Lemma short_title_excluded (element : ArticleTag) (anchor : Anchor) :
  find_anchor_with_href element = Some anchor ->
  len_str (a_text anchor) < 5 ->
  _build_article_from_element element base_url src = Ok None.
Proof.
  intros Hfind Hlen. unfold _build_article_from_element. rewrite Hfind.
  apply Z.ltb_lt in Hlen. rewrite Hlen, orb_true_r. reflexivity.
Qed.

(** An anchor with an href, a title of five characters or more and a
    target that resolves to an http(s) URL makes one. *)
Lemma long_title_included (element : ArticleTag) (anchor : Anchor)
      (href : string) (u : Url) :
  find_anchor_with_href element = Some anchor ->
  a_href anchor = Some href ->
  5 <= len_str (a_text anchor) ->
  startswith (urljoin base_url href) "http" = true ->
  validate_http_url (urljoin base_url href) = Some u ->
  exists a,
    _build_article_from_element element base_url src = Ok (Some a) /\
    title a = a_text anchor /\ url a = u.
Proof.
  intros Hfind Ha Hlen Hhttp Hu.
  unfold _build_article_from_element. rewrite Hfind, Ha.
  assert (Hne : String.eqb (a_text anchor) "" = false).
  { destruct (a_text anchor); [unfold len_str in Hlen; simpl in Hlen; lia |].
    reflexivity. }
  apply Z.ltb_ge in Hlen. rewrite Hne, Hlen. cbn [orb].
  rewrite Hhttp. cbn [negb]. unfold NewsArticle_init. rewrite Hu. cbn [bind].
  eexists. split; [reflexivity |]. split; reflexivity.
Qed.

End FilterFacts.

(** C8. Every article the HTML extraction returns, from the structured
    tier or from the fallback tier, was taken from an anchor of the page
    that has an href and a title of at least 5 characters, and whose href,
    joined to the target's base URL, starts with "http" and is a valid
    http(s) URL: the article's URL. *)
Theorem extracted_articles_pass_filter
        {rt : Runtime} (base_url src : string) (lim : Z) (soup : Soup)
        (arts : list NewsArticle) :
  _extract_articles base_url src lim soup = Ok arts ->
  Forall (sourced base_url (soup_anchors soup)) arts.
Proof.
  unfold _extract_articles. intro H. inv_bind H. destruct v as [found seen].
  inv_bind H. injection H as <-.
  apply slice_to_Forall.
  assert (Hfound : Forall (sourced base_url (soup_anchors soup)) found).
  { eapply structured_pass_sourced; [| constructor | exact Hv].
    intros e He x Hx. unfold soup_anchors. apply in_or_app. left.
    apply in_concat. exists (tag_anchors e). split; [| exact Hx].
    apply in_map. exact He. }
  destruct (len found <? lim).
  - eapply fallback_pass_sourced; [| exact Hfound | exact Hv0].
    intros x Hx. unfold soup_anchors. apply in_or_app. right. exact Hx.
  - injection Hv0 as <-. exact Hfound.
Qed.

(** A page with a two-character and a long headline in each tier: the
    extraction keeps the two long ones and neither "Hi". *)
Lemma extracted_articles_pass_filter_witness :
  let soup :=
    mk_soup
      [ mk_article_tag [mk_anchor (Some "/hi") "Hi"] None None;
        mk_article_tag [mk_anchor (Some "/surge") "Crypto surges today"] None None ]
      [ mk_anchor (Some "/hi-again") "Hi";
        mk_anchor (Some "https://example.com/etf") "Funds file for spot ETF" ]
      [] in
  exists arts,
    _extract_articles (rt := ascii_runtime) "https://example.com/" "Example" 6 soup
      = Ok arts /\
    map title arts = ["Crypto surges today"; "Funds file for spot ETF"] /\
    map (fun a => url_text (url a)) arts
      = ["https://example.com/surge"; "https://example.com/etf"] /\
    Forall (sourced (rt := ascii_runtime) "https://example.com/" (soup_anchors soup))
           arts.
Proof.
  intro soup. eexists.
  split; [vm_compute; reflexivity |].
  split; [reflexivity |].
  split; [reflexivity |].
  apply (extracted_articles_pass_filter (rt := ascii_runtime)
           "https://example.com/" "Example" 6 soup).
  vm_compute. reflexivity.
Defined.

(** ** The services on the documents of the repository's tests *)

Module Examples.
Import Fixtures.

(** Three prices: the middle one, whatever the order they come in. *)
Lemma median_of_three :
  median_price (snapshot [Some (num "64000.12"); Some (num "63950.55");
                          Some (num "63975.10")])
  = Some (num "63975.10").
Proof. vm_compute. reflexivity. Qed.

(** One provider failed: the average of the two prices left. *)
Lemma median_of_two :
  median_price (snapshot [Some (num "64000"); None; Some (num "63950")])
  = Some (num "63975").
Proof. vm_compute. reflexivity. Qed.

Lemma median_of_none : median_price (snapshot [None; None; None]) = None.
Proof. reflexivity. Qed.

(** The three requests of a service with the default settings. *)
Lemma default_requests :
  map req_url (provider_requests default_settings "BTC" "USDT")
  = ["https://api.binance.com//api/v3/ticker/24hr";
     "https://api.bybit.com//v5/market/tickers";
     "https://api.coincap.io/v2/assets"].
Proof. reflexivity. Qed.

(** The payloads of [test_fetch_symbol_aggregates_all_sources], served at
    the URLs the service asks for. *)
Lemma fetch_symbol_on_test_payloads :
  let snapshot := fetch_symbol (rt := ascii_runtime) default_settings
                               mocked_exchanges 0 "BTC" "USDT" in
  agg_symbol snapshot = "BTCUSDT" /\
  base_symbol snapshot = "BTC" /\
  quote_symbol snapshot = "USDT" /\
  map source (prices snapshot) = ["binance"; "bybit"; "coincap"] /\
  median_price snapshot = Some (num "63975.10") /\
  map change_24h (prices snapshot)
    = [Some (num "2.5"); Some (num "2.5"); Some (num "2.45")].
Proof. vm_compute. repeat split. Qed.

(** An empty Bybit list and an empty CoinCap list are data errors: their
    slots carry the messages, the Binance slot its point. *)
Lemma fetch_symbol_data_errors :
  let get_json := fun r : Request =>
    if String.eqb (req_url r) "https://api.binance.com//api/v3/ticker/24hr"
    then Ok (JDict [("lastPrice", JStr "64000.12")])
    else if String.eqb (req_url r) "https://api.bybit.com//v5/market/tickers"
    then Ok (JDict [("result", JDict [("list", JList [])])])
    else Ok (JDict [("data", JList [])]) in
  map (fun p => (source p, raw p))
      (prices (fetch_symbol (rt := ascii_runtime) default_settings get_json 0
                            "BTC" "USDT"))
  = [ ("binance", Some [("lastPrice", JStr "64000.12")]);
      ("error", Some [("message", JStr "Bybit returned no ticker data for BTCUSDT")]);
      ("error", Some [("message", JStr "CoinCap returned no asset data for BTC")]) ].
Proof. vm_compute. reflexivity. Qed.

(** With every upstream down the snapshot still has its three slots. *)
Lemma fetch_symbol_all_down :
  let down := fun _ : Request => raise HTTPError "All connection attempts failed" in
  map (fun p => (source p, raw p))
      (prices (fetch_symbol (rt := ascii_runtime) default_settings down 0
                            "btc" "usdt"))
  = repeat ("error", Some [("message", JStr "All connection attempts failed")])
           3.
Proof. vm_compute. reflexivity. Qed.

(** The date texts of the tests are read as UTC times; an offset is taken
    off, a date without a zone is stamped UTC, and a text that is no date
    gives null. *)
Lemma parse_datetime_examples :
  let utc := fun t => Some (mk_datetime t (Some 0)) in
  _parse_datetime (rt := ascii_runtime) (Some "Mon, 20 May 2024 15:20:00 +0000")
  = utc 1716218400 /\
  _parse_datetime (rt := ascii_runtime) (Some "2024-05-20T17:20:00+02:00")
  = utc 1716218400 /\
  _parse_datetime (rt := ascii_runtime) (Some "2024-05-20 15:20:00")
  = utc 1716218400 /\
  _parse_datetime (rt := ascii_runtime) (Some "2024-05-20T12:34:00Z")
  = utc 1716208440 /\
  _parse_datetime (rt := ascii_runtime) (Some "May 21, 2024 09:15 UTC")
  = utc 1716282900 /\
  _parse_datetime (rt := ascii_runtime) (Some "yesterday-ish") = None /\
  _parse_datetime (rt := ascii_runtime) (Some "") = None /\
  _parse_datetime (rt := ascii_runtime) None = None.
Proof. vm_compute. repeat split. Qed.

(** [test_news_service_extracts_articles] *)
Lemma news_service_extracts_articles :
  let tgt := mk_target "TestSource" "https://testsource.example/" 3 in
  let agg := fetch_all_over (rt := ascii_runtime) (fun _ => Ok test_page) 0
                            [tgt] 2 in
  map feed_source (feeds agg) = ["TestSource"] /\
  map (fun f => map (fun a => (title a, url_text (url a))) (items f)) (feeds agg)
  = [[("First crypto update", "https://testsource.example/article-1");
      ("Second crypto insight", "https://external.com/article-2")]] /\
  map (fun f => map published_at (items f)) (feeds agg)
  = [[Some (mk_datetime 1716208440 (Some 0));
      Some (mk_datetime 1716282900 (Some 0))]].
Proof. vm_compute. repeat split. Qed.

(** [test_news_service_fetches_cryptopanic_rss] *)
Lemma news_service_fetches_cryptopanic_rss :
  let tgt := mk_target "CryptoPanic" "https://cryptopanic.com/news/rss/" 2 in
  let rss :=
    mk_soup [] []
      [ mk_item (Some "Market sentiment flips")
                (Some "https://cryptopanic.com/news/market-sentiment")
                (Some "Mon, 20 May 2024 15:20:00 +0000") None
                (Some "Quick summary.") ] in
  let agg := fetch_all_over (rt := ascii_runtime) (fun _ => Ok rss) 0 [tgt] 2 in
  map feed_source (feeds agg) = ["CryptoPanic"] /\
  map (fun f => map (fun a => (title a, url_text (url a), published_at a))
                    (items f)) (feeds agg)
  = [[("Market sentiment flips",
       "https://cryptopanic.com/news/market-sentiment",
       Some (mk_datetime 1716218400 (Some 0)))]].
Proof. vm_compute. repeat split. Qed.

(** A target that cannot be reached: one feed, one synthetic article. *)
Lemma news_service_target_down :
  let tgt := mk_target "TestSource" "https://testsource.example/" 3 in
  let agg := fetch_all_over (rt := ascii_runtime)
                            (fun _ => raise HTTPError "Connection refused") 0
                            [tgt] 2 in
  feeds agg = [mk_feed "TestSource" 0 [synthetic_article tgt "Connection refused"]].
Proof. vm_compute. reflexivity. Qed.

End Examples.

(* ===================================================================== *)
(** * Further properties of the market service *)
(* ===================================================================== *)

Section MarketMore.

Context {rt : Runtime}.

(** [_to_float] raises exactly on an [int] too large for a double. *)
Theorem to_float_raises_only_on_huge_int (value : json) :
  (exists r, _to_float value = Ok r) <->
  (forall n, value = JInt n -> is_ok (float_of_int n) = true).
Proof.
  split.
  - intros (r & Hr) n ->. unfold _to_float in Hr. cbn in Hr.
    destruct (float_of_int n) as [x | e] eqn:Hn; [reflexivity |].
    unfold float_of_int in Hn.
    destruct (nearest_float n); try discriminate Hn.
    injection Hn as <-. cbn in Hr. discriminate Hr.
  - apply to_float_returns.
Qed.

Variable self : Settings.

(** The Binance task returns a point exactly when the body is a JSON object
    and the three coercions return; the point is then made of the fields
    [lastPrice], [priceChangePercent] and [quoteVolume] (null when the key is
    missing) with the whole body as [raw]. A body that is not an object
    makes the task raise. *)
Theorem binance_point_fields
        (get_json : Request -> result json) (base quote : string)
        (pt : MarketPricePoint) :
  _fetch_binance self get_json base quote = Ok pt <->
  exists d p c v,
    get_json (mk_request (binance_base_url self ++ "/api/v3/ticker/24hr")%string
                         [("symbol", (base ++ quote)%string)] [])
      = Ok (JDict d) /\
    _to_float (field d "lastPrice") = Ok p /\
    _to_float (field d "priceChangePercent") = Ok c /\
    _to_float (field d "quoteVolume") = Ok v /\
    pt = mk_point "binance" (base ++ quote)%string p c v (Some d).
Proof.
  unfold _fetch_binance. split.
  - intro H.
    apply bind_ok in H. destruct H as (payload & Hpayload & H).
    apply bind_ok in H. destruct H as (p & Hp & H).
    apply bind_ok in H. destruct H as (c & Hc & H).
    apply bind_ok in H. destruct H as (v & Hv & H).
    destruct payload as [| b | n | x | s | l | d]; try discriminate Hp.
    cbn in H. injection H as <-.
    exists d, p, c, v. repeat split; assumption.
  - intros (d & p & c & v & Hpayload & Hp & Hc & Hv & ->).
    rewrite Hpayload. cbn [bind py_get]. fold (field d "lastPrice").
    rewrite Hp. cbn [bind]. fold (field d "priceChangePercent").
    rewrite Hc. cbn [bind]. fold (field d "quoteVolume").
    rewrite Hv. reflexivity.
Qed.

(** Without a ticker in the body the Bybit task raises the data error: the
    [result] key or its [list] key is missing, the list is empty, or its
    first element is an empty object. *)
Theorem bybit_no_ticker_is_value_error
        (get_json : Request -> result json) (base quote : string) (d : dict) :
  get_json (mk_request (bybit_base_url self ++ "/v5/market/tickers")%string
                       [("category", "spot"); ("symbol", (base ++ quote)%string)]
                       [])
    = Ok (JDict d) ->
  (dict_lookup d "result" = None \/
   exists r, dict_lookup d "result" = Some (JDict r) /\
             (dict_lookup r "list" = None \/
              dict_lookup r "list" = Some (JList []) \/
              exists rest, dict_lookup r "list" = Some (JList (JDict [] :: rest)))) ->
  _fetch_bybit self get_json base quote
  = Raise (mk_exn ValueError
                  ("Bybit returned no ticker data for " ++ base ++ quote)%string).
Proof.
  intros Hpayload Hcase. unfold _fetch_bybit. rewrite Hpayload.
  cbn [bind py_get].
  destruct Hcase as [Hnone | (r & Hr & [Hnone | [Hempty | (rest & Hfirst)]])].
  - rewrite Hnone. reflexivity.
  - rewrite Hr. cbn [bind py_get]. rewrite Hnone. reflexivity.
  - rewrite Hr. cbn [bind py_get]. rewrite Hempty. reflexivity.
  - rewrite Hr. cbn [bind py_get]. rewrite Hfirst. reflexivity.
Qed.

(** Where a returned Bybit point comes from: the answer to the task's one
    request holds a non-empty list under [result.list] whose first element
    is a non-empty object, the first ticker. The point keeps that ticker as
    [raw]; its price is the ticker's [lastPrice] and its volume the ticker's
    [turnover24h]; its change is null when the ticker has no [price24hPcnt]
    or one that is not a number, and a hundred times the number otherwise. *)
Theorem bybit_point_fields
        (get_json : Request -> result json) (base quote : string)
        (pt : MarketPricePoint) :
  _fetch_bybit self get_json base quote = Ok pt ->
  exists payload res d rest,
    get_json (mk_request (bybit_base_url self ++ "/v5/market/tickers")%string
                         [("category", "spot"); ("symbol", (base ++ quote)%string)]
                         [])
      = Ok payload /\
    py_get payload "result" (JDict []) = Ok res /\
    py_get res "list" (JList []) = Ok (JList (JDict d :: rest)) /\
    raw pt = Some d /\
    d <> [] /\
    _to_float (field d "lastPrice") = Ok (price pt) /\
    _to_float (field d "turnover24h") = Ok (volume_24h pt) /\
    match dict_lookup d "price24hPcnt" with
    | None => change_24h pt = None
    | Some raw_pct =>
        exists r, _to_float raw_pct = Ok r /\
                  change_24h pt = option_map (fun x => fmul x (float_lit 100)) r
    end.
Proof.
  unfold _fetch_bybit. intro H.
  apply bind_ok in H. destruct H as (payload & Hpayload & H).
  apply bind_ok in H. destruct H as (res & Hres & H).
  apply bind_ok in H. destruct H as (items & Hitems & H).
  apply bind_ok in H. destruct H as (first & Hfirst & H).
  destruct (negb (truthy first)) eqn:Htruthy; [discriminate H |].
  apply bind_ok in H. destruct H as (p & Hp & H).
  destruct first as [| b | n | x | s | l | d]; try discriminate Hp.
  destruct (truthy items) eqn:Hnonempty; [| discriminate Hfirst].
  destruct items as [| b | n | x | s | l | d'];
    try discriminate Hnonempty; try discriminate Hfirst.
  { destruct s; discriminate Hfirst. }
  destruct l as [| first' rest]; [discriminate Hnonempty |].
  injection Hfirst as ->.
  apply bind_ok in H. destruct H as (has_pct & Hhas & H).
  apply bind_ok in H. destruct H as (change & Hchange & H).
  apply bind_ok in H. destruct H as (volume & Hvolume & H).
  cbn in H. injection H as <-. cbn [raw price volume_24h change_24h].
  exists payload, res, d, rest.
  split; [exact Hpayload |]. split; [exact Hres |]. split; [exact Hitems |].
  split; [reflexivity |].
  split; [destruct d; [discriminate Htruthy | discriminate] |].
  split; [exact Hp |]. split; [exact Hvolume |].
  unfold py_contains in Hhas.
  destruct (dict_lookup d "price24hPcnt") as [raw_pct |] eqn:Hraw;
    injection Hhas as <-.
  - apply bind_ok in Hchange. destruct Hchange as (r & Hr & Hchange).
    unfold py_get in Hr. rewrite Hraw in Hr. cbn [bind] in Hr.
    exists r. split; [exact Hr |].
    injection Hchange as <-. destruct r; reflexivity.
  - injection Hchange as <-. reflexivity.
Qed.

(** CoinCap is asked about the base symbol only: with another quote symbol
    the task ends the same way, the point differing in its [symbol] alone. *)
Theorem coincap_ignores_quote
        (get_json : Request -> result json) (base quote quote' : string) :
  _fetch_coincap self get_json base quote' =
  match _fetch_coincap self get_json base quote with
  | Ok pt => Ok (mk_point (source pt) (base ++ quote')%string (price pt)
                          (change_24h pt) (volume_24h pt) (raw pt))
  | Raise e => Raise e
  end.
Proof.
  unfold _fetch_coincap.
  destruct (get_json _) as [payload | e]; [| reflexivity]. cbn [bind].
  destruct (py_get payload "data" (JList [])) as [data | e]; [| reflexivity].
  cbn [bind].
  destruct (select_asset base data) as [m | e]; [| reflexivity]. cbn [bind].
  destruct (py_get m "priceUsd" JNull) as [x | e]; [| reflexivity]. cbn [bind].
  destruct (_to_float x) as [p | e]; [| reflexivity]. cbn [bind].
  destruct (py_get m "changePercent24Hr" JNull) as [y | e]; [| reflexivity].
  cbn [bind].
  destruct (_to_float y) as [c | e]; [| reflexivity]. cbn [bind].
  destruct (py_get m "volumeUsd24Hr" JNull) as [z | e]; [| reflexivity].
  cbn [bind].
  destruct (_to_float z) as [v | e]; [| reflexivity]. cbn [bind].
  unfold MarketPricePoint_init.
  destruct (validate_raw m) as [r | e]; reflexivity.
Qed.

(** Each slot of the snapshot depends on the one request of its provider:
    two clients that answer that request alike fill the slot alike, whatever
    they answer to the others. *)
Theorem slot_depends_on_own_request
        (g g' : Request -> result json) (now : Z) (base quote : string)
        (i : nat) (r : Request) :
  nth_error (provider_requests self (str_upper base) (str_upper quote)) i
    = Some r ->
  g r = g' r ->
  nth_error (prices (fetch_symbol self g now base quote)) i
  = nth_error (prices (fetch_symbol self g' now base quote)) i.
Proof.
  intros Hi Hr.
  unfold provider_requests in Hi.
  destruct i as [| [| [| i]]]; cbn [nth_error] in Hi;
    [| | | destruct i; discriminate Hi];
    match type of Hi with
    | Some ?x = _ =>
        assert (Hx : g x = g' x)
          by (replace x with r by (injection Hi as Hi'; symmetry; exact Hi');
              exact Hr)
    end;
    unfold fetch_symbol, gather; cbn [prices map nth_error];
    f_equal; f_equal.
  - unfold _fetch_binance. cbv zeta. rewrite Hx. reflexivity.
  - unfold _fetch_bybit. cbv zeta. rewrite Hx. reflexivity.
  - unfold _fetch_coincap. cbv zeta. rewrite Hx. reflexivity.
Qed.

End MarketMore.

(** ** More on the median *)

Lemma sorted_nil_iff (l : list float) : Sorting.sorted l = [] <-> l = [].
Proof.
  split; [| intros ->; reflexivity].
  intro H. pose proof (SortingFacts.sorted_length l) as Hlen.
  rewrite H in Hlen. destruct l; [reflexivity | discriminate Hlen].
Qed.

Lemma non_null_prices_nil_iff (points : list MarketPricePoint) :
  non_null_prices points = [] <-> Forall (fun p => price p = None) points.
Proof.
  induction points as [| pt rest IH]; cbn [non_null_prices].
  - split; [constructor | reflexivity].
  - destruct (price pt) as [x |] eqn:Hp.
    + split; [discriminate |]. intro H. inversion H; subst. congruence.
    + rewrite IH. split.
      * intro H. constructor; assumption.
      * intro H. inversion H; assumption.
Qed.

(** The median is null exactly when no point of the snapshot has a price. *)
Theorem median_null_iff_no_price (agg : MarketAggregate) :
  median_price agg = None <-> Forall (fun p => price p = None) (prices agg).
Proof.
  rewrite <- non_null_prices_nil_iff, <- sorted_nil_iff.
  unfold median_price.
  destruct (Sorting.sorted (non_null_prices (prices agg))) as [| x rest].
  - split; reflexivity.
  - split; [| discriminate].
    destruct (Nat.eqb _ _); discriminate.
Qed.

Lemma ordinary_antisym (a b : float) :
  ordinary a -> ordinary b ->
  flt a b = false -> flt b a = false -> a = b.
Proof.
  intros [Hna Hza] [Hnb Hzb].
  destruct a as [sa | sa | | sa ma ea], b as [sb | sb | | sb mb eb];
    try congruence;
    try destruct sa; try destruct sb; try congruence;
    try (intros Hd _; discriminate Hd);
    try (intros _ Hd; discriminate Hd);
    unfold flt, SFltb, SFcompare;
    change (Pos.compare_cont Eq ma mb) with (ma ?= mb)%positive;
    change (Pos.compare_cont Eq mb ma) with (mb ?= ma)%positive;
    destruct (Z.compare_spec ea eb), (Z.compare_spec eb ea); try lia;
    try (intros Hd _; discriminate Hd);
    try (intros _ Hd; discriminate Hd);
    destruct (Pos.compare_spec ma mb), (Pos.compare_spec mb ma); try lia;
    cbn [CompOpp];
    try (intros Hd _; discriminate Hd);
    try (intros _ Hd; discriminate Hd);
    intros _ _; subst; reflexivity.
Qed.

(** An ascending arrangement of ordinary prices is the only one. *)
Lemma ascending_unique (s1 : list float) :
  forall s2,
    Forall ordinary s1 ->
    Sorting.ascending s1 -> Sorting.ascending s2 ->
    Permutation s1 s2 -> s1 = s2.
Proof.
  unfold Sorting.ascending.
  induction s1 as [| a s1 IH]; intros s2 Hord H1 H2 Hperm.
  - apply Permutation_nil in Hperm. symmetry. exact Hperm.
  - destruct s2 as [| b s2];
      [apply Permutation_sym, Permutation_nil in Hperm; discriminate Hperm |].
    inversion H1 as [| ? ? H1' Ha]; subst.
    inversion H2 as [| ? ? H2' Hb]; subst.
    inversion Hord as [| ? ? Hoa Hord']; subst.
    assert (Hob : ordinary b).
    { rewrite Forall_forall in Hord. apply Hord.
      apply (Permutation_in _ (Permutation_sym Hperm)). left. reflexivity. }
    assert (Hab : a = b).
    { assert (Hin_a : In a (b :: s2))
        by (apply (Permutation_in _ Hperm); left; reflexivity).
      assert (Hin_b : In b (a :: s1))
        by (apply (Permutation_in _ (Permutation_sym Hperm)); left; reflexivity).
      destruct Hin_a as [Heq | Hin_a]; [symmetry; exact Heq |].
      destruct Hin_b as [Heq | Hin_b]; [exact Heq |].
      rewrite Forall_forall in Ha, Hb.
      apply ordinary_antisym; [exact Hoa | exact Hob | |].
      - apply Hb. exact Hin_a.
      - apply Ha. exact Hin_b. }
    subst b. f_equal.
    apply IH; [exact Hord' | exact H1' | exact H2' |].
    eapply Permutation_cons_inv. exact Hperm.
Qed.

Lemma non_null_prices_perm (l1 l2 : list MarketPricePoint) :
  Permutation l1 l2 -> Permutation (non_null_prices l1) (non_null_prices l2).
Proof.
  induction 1 as [| p l l' _ IH | p q l | l l' l'' _ IH1 _ IH2];
    cbn [non_null_prices].
  - constructor.
  - destruct (price p); [constructor |]; exact IH.
  - destruct (price p), (price q); try apply Permutation_refl.
    apply perm_swap.
  - eapply Permutation_trans; eassumption.
Qed.

(** The median does not depend on the order of the price points, as long as
    the prices are ordinary numbers. *)
Theorem median_order_independent (agg agg' : MarketAggregate) :
  Permutation (prices agg) (prices agg') ->
  Forall ordinary (non_null_prices (prices agg)) ->
  median_price agg = median_price agg'.
Proof.
  intros Hperm Hord.
  assert (Hsame : Sorting.sorted (non_null_prices (prices agg))
                  = Sorting.sorted (non_null_prices (prices agg'))).
  { apply ascending_unique.
    - rewrite Forall_forall in *. intros x Hx. apply Hord.
      apply (Permutation_in _ (SortingFacts.sorted_perm _)). exact Hx.
    - apply SortingFacts.sorted_ascending.
    - apply SortingFacts.sorted_ascending.
    - eapply Permutation_trans; [apply SortingFacts.sorted_perm |].
      eapply Permutation_trans; [apply non_null_prices_perm; exact Hperm |].
      apply Permutation_sym, SortingFacts.sorted_perm. }
  unfold median_price. rewrite Hsame. reflexivity.
Qed.

(* ===================================================================== *)
(** * Further properties of the news service *)
(* ===================================================================== *)

Section NewsMore.

Context {rt : Runtime}.

Lemma parse_datetime_utc (value : option string) (d : datetime) :
  _parse_datetime value = Some d -> dt_utcoffset d = Some 0.
Proof.
  unfold _parse_datetime.
  destruct value as [v |]; [| discriminate].
  destruct (String.eqb v ""); [discriminate |].
  destruct (dateutil_parse v) as [parsed |]; [| discriminate].
  destruct (dt_utcoffset parsed); intro H; injection H as <-; reflexivity.
Qed.

Lemma init_article_fields src ttl link smry published meta a :
  NewsArticle_init src ttl link smry published meta = Ok a ->
  exists u, validate_http_url link = Some u /\
            a = mk_article src ttl u published smry meta.
Proof.
  unfold NewsArticle_init.
  destruct (validate_http_url link) as [u |]; [| discriminate].
  intro H. injection H as <-. exists u. split; reflexivity.
Qed.

Lemma build_article_fields element base_url src a :
  _build_article_from_element element base_url src = Ok (Some a) ->
  art_source a = src /\ utc_or_null a /\ summary a = tag_p element /\
  metadata a = [].
Proof.
  unfold _build_article_from_element.
  destruct (find_anchor_with_href element) as [anchor |]; [| discriminate].
  destruct (_ || _); [discriminate |].
  destruct (negb _); [discriminate |].
  intro H. apply bind_ok in H. destruct H as (a' & Hinit & H).
  injection H as <-.
  apply init_article_fields in Hinit. destruct Hinit as (u & _ & ->).
  cbn [art_source summary metadata]. unfold utc_or_null. cbn [published_at].
  repeat split.
  destruct (tag_time element) as [time_tag |]; [| exact I].
  destruct (_parse_datetime _) as [d |] eqn:Hd; [| exact I].
  eapply parse_datetime_utc. exact Hd.
Qed.

Section Passes.

Variables (base_url src : string) (lim : Z).
Variable P : NewsArticle -> Prop.

Lemma structured_pass_Forall (elements : list ArticleTag) :
  (forall element a,
      _build_article_from_element element base_url src = Ok (Some a) -> P a) ->
  forall articles seen arts seen',
    Forall P articles ->
    structured_pass base_url src lim elements articles seen = Ok (arts, seen') ->
    Forall P arts.
Proof.
  intro Hbuild.
  induction elements as [| element rest IH]; intros articles seen arts seen' Hall H.
  - injection H as <- <-. exact Hall.
  - cbn [structured_pass] in H.
    apply bind_ok in H. destruct H as (it & Hit & H).
    destruct it as [a |].
    + destruct (negb (set_contains seen (PUrl (url a)))).
      * assert (Hall' : Forall P (articles ++ [a])).
        { apply Forall_app. split; [exact Hall |].
          constructor; [eapply Hbuild; exact Hit | constructor]. }
        destruct (lim <=? len (articles ++ [a])).
        -- injection H as <- <-. exact Hall'.
        -- eapply IH; eassumption.
      * destruct (lim <=? len articles).
        -- injection H as <- <-. exact Hall.
        -- eapply IH; eassumption.
    + destruct (lim <=? len articles).
      * injection H as <- <-. exact Hall.
      * eapply IH; eassumption.
Qed.

Lemma fallback_pass_Forall (anchors : list Anchor) :
  (forall ttl link a,
      NewsArticle_init src ttl link None None [] = Ok a -> P a) ->
  forall articles seen arts,
    Forall P articles ->
    fallback_pass base_url src lim anchors articles seen = Ok arts ->
    Forall P arts.
Proof.
  intro Hinit.
  induction anchors as [| anchor rest IH]; intros articles seen arts Hall H.
  - injection H as <-. exact Hall.
  - cbn [fallback_pass] in H.
    destruct (a_href anchor) as [href |]; [| eapply IH; eassumption].
    destruct (_ || _ || _); [eapply IH; eassumption |].
    destruct (negb _); [eapply IH; eassumption |].
    destruct (set_contains _ _); [eapply IH; eassumption |].
    apply bind_ok in H. destruct H as (a & Ha & H).
    assert (Hall' : Forall P (articles ++ [a])).
    { apply Forall_app. split; [exact Hall |].
      constructor; [eapply Hinit; exact Ha | constructor]. }
    destruct (lim <=? len (articles ++ [a])).
    + injection H as <-. exact Hall'.
    + eapply IH; eassumption.
Qed.

Lemma rss_pass_Forall (entries : list ItemTag) :
  (forall ttl link smry published a,
      NewsArticle_init src ttl link smry (_parse_datetime published) [] = Ok a ->
      P a) ->
  forall acc seen its,
    Forall P acc ->
    rss_pass src lim entries acc seen = Ok its ->
    Forall P its.
Proof.
  intro Hinit.
  induction entries as [| entry rest IH]; intros acc seen its Hall H.
  - injection H as <-. exact Hall.
  - cbn [rss_pass] in H.
    destruct (item_title entry) as [ttl |]; [| eapply IH; eassumption].
    destruct (item_link entry) as [link |]; [| eapply IH; eassumption].
    destruct (_ || _ || _); [eapply IH; eassumption |].
    apply bind_ok in H. destruct H as (a & Ha & H).
    assert (Hall' : Forall P (acc ++ [a])).
    { apply Forall_app. split; [exact Hall |].
      constructor; [eapply Hinit; exact Ha | constructor]. }
    destruct (lim <=? len (acc ++ [a])).
    + injection H as <-. exact Hall'.
    + eapply IH; eassumption.
Qed.

End Passes.

Variable get_soup : Request -> result Soup.
Variable now : Z.

(** A property of articles that every way of making one establishes holds
    of every article of every feed. *)
Lemma fetch_all_over_Forall (P : ScrapeTarget -> NewsArticle -> Prop)
      (targets : list ScrapeTarget) (cap : Z) :
  (forall tgt element a,
      _build_article_from_element element (target_url tgt) (name tgt) = Ok (Some a) ->
      P tgt a) ->
  (forall tgt ttl link smry published a,
      NewsArticle_init (name tgt) ttl link smry (_parse_datetime published) []
        = Ok a -> P tgt a) ->
  (forall tgt message, P tgt (synthetic_article tgt message)) ->
  Forall2 (fun tgt feed => Forall (P tgt) (items feed))
          targets (feeds (fetch_all_over get_soup now targets cap)).
Proof.
  intros Hbuild Hinit Hsyn. rewrite fetch_all_over_feeds.
  induction targets as [| tgt rest IH]; cbn [map]; constructor; [| exact IH].
  destruct (_fetch_target get_soup now tgt cap) as [feed | e] eqn:Hfetch.
  - unfold _fetch_target, _fetch_cryptopanic_rss, _scrape_generic in Hfetch.
    destruct (String.eqb (name tgt) "CryptoPanic").
    + apply bind_ok in Hfetch. destruct Hfetch as (soup & _ & Hfetch).
      apply bind_ok in Hfetch. destruct Hfetch as (its & Hits & Hfetch).
      injection Hfetch as <-. cbn [items].
      eapply rss_pass_Forall; [| constructor | exact Hits].
      intros ttl link smry published a. apply Hinit.
    + apply bind_ok in Hfetch. destruct Hfetch as (soup & _ & Hfetch).
      apply bind_ok in Hfetch. destruct Hfetch as (arts & Harts & Hfetch).
      injection Hfetch as <-. cbn [items].
      unfold _extract_articles in Harts.
      apply bind_ok in Harts. destruct Harts as ([found seen] & Hfound & Harts).
      apply bind_ok in Harts. destruct Harts as (all & Hall & Harts).
      injection Harts as <-.
      apply slice_to_Forall.
      assert (Hf : Forall (P tgt) found).
      { eapply structured_pass_Forall; [| constructor | exact Hfound].
        intros element a. apply Hbuild. }
      destruct (len found <? _).
      * eapply fallback_pass_Forall; [| exact Hf | exact Hall].
        intros ttl link a Ha.
        apply (Hinit tgt ttl link None None a). exact Ha.
      * injection Hall as <-. exact Hf.
  - cbn [failed_feed items]. constructor; [apply Hsyn | constructor].
Qed.

(** Every article of every feed names the feed's target as its source and
    has a publication time that is missing or in UTC; this holds for the
    scraped, the RSS and the synthetic articles alike. *)
Theorem articles_sourced_and_utc (targets : list ScrapeTarget) (cap : Z) :
  Forall2 (fun tgt feed =>
             feed_source feed = name tgt /\
             Forall (fun a => art_source a = name tgt /\ utc_or_null a)
                    (items feed))
          targets (feeds (fetch_all_over get_soup now targets cap)).
Proof.
  assert (Hitems :
    Forall2 (fun tgt feed =>
               Forall (fun a => art_source a = name tgt /\ utc_or_null a)
                      (items feed))
            targets (feeds (fetch_all_over get_soup now targets cap))).
  { apply (fetch_all_over_Forall
             (fun tgt a => art_source a = name tgt /\ utc_or_null a)).
    - intros tgt element a Ha. apply build_article_fields in Ha. tauto.
    - intros tgt ttl link smry published a Ha.
      apply init_article_fields in Ha. destruct Ha as (u & _ & ->).
      split; [reflexivity |]. unfold utc_or_null. cbn [published_at].
      destruct (_parse_datetime published) as [d |] eqn:Hd; [| exact I].
      eapply parse_datetime_utc. exact Hd.
    - intros tgt message. split; [reflexivity | exact I]. }
  rewrite fetch_all_over_feeds in *.
  induction targets as [| tgt rest IH]; cbn [map] in *; constructor.
  - inversion Hitems as [| ? ? ? ? Hhead _]; subst. split; [| exact Hhead].
    destruct (_fetch_target get_soup now tgt cap) as [feed | e] eqn:Hfetch.
    + eapply fetch_target_source. exact Hfetch.
    + reflexivity.
  - apply IH. inversion Hitems; assumption.
Qed.

Lemma subseq_nil_l {A} (l : list A) : subseq [] l.
Proof. induction l; constructor; assumption. Qed.

Lemma set_contains_str (seen : list string) (x : string) :
  set_contains seen (PStr x) = false <-> ~ In x seen.
Proof.
  induction seen as [| s rest IH]; cbn [set_contains existsb py_eq In].
  - split; [intros _ [] | reflexivity].
  - fold (set_contains rest (PStr x)). rewrite orb_false_iff, IH.
    split.
    + intros [Hne Hrest] [Heq | Hin]; [| exact (Hrest Hin)].
      subst s. rewrite String.eqb_refl in Hne. discriminate Hne.
    + intro Hnot. split.
      * apply String.eqb_neq. intro Heq. apply Hnot. left. symmetry. exact Heq.
      * intro Hin. apply Hnot. right. exact Hin.
Qed.

Lemma nonempty_str (s : string) : String.eqb s "" = false -> s <> "".
Proof. intros H ->. discriminate H. Qed.

(** What the RSS loop returns, item by item. *)
Lemma rss_pass_chosen (src : string) (lim : Z) (entries : list ItemTag) :
  forall acc seen its,
    rss_pass src lim entries acc seen = Ok its ->
    exists chosen new,
      subseq chosen entries /\
      its = acc ++ new /\
      Forall2 (built_from_item src) chosen new /\
      NoDup (map item_link chosen) /\
      forall entry link,
        In entry chosen -> item_link entry = Some link -> ~ In link seen.
Proof.
  induction entries as [| entry rest IH]; intros acc seen its H.
  - injection H as <-. exists [], [].
    rewrite app_nil_r. repeat split; try constructor. intros ? ? [].
  - cbn [rss_pass] in H.
    assert (Hskip :
      rss_pass src lim rest acc seen = Ok its ->
      exists chosen new,
        subseq chosen (entry :: rest) /\ its = acc ++ new /\
        Forall2 (built_from_item src) chosen new /\
        NoDup (map item_link chosen) /\
        forall e link, In e chosen -> item_link e = Some link -> ~ In link seen).
    { intro Hrest. destruct (IH _ _ _ Hrest) as (chosen & new & Hsub & Hrest').
      exists chosen, new. split; [constructor; exact Hsub | exact Hrest']. }
    destruct (item_title entry) as [ttl |] eqn:Httl; [| exact (Hskip H)].
    destruct (item_link entry) as [link |] eqn:Hlink; [| exact (Hskip H)].
    destruct (String.eqb ttl "" || String.eqb link ""
              || set_contains seen (PStr link)) eqn:Hcond; [exact (Hskip H) |].
    apply orb_false_elim in Hcond. destruct Hcond as [Hcond Hseen].
    apply orb_false_elim in Hcond. destruct Hcond as [Hne_t Hne_l].
    apply nonempty_str in Hne_t. apply nonempty_str in Hne_l.
    apply set_contains_str in Hseen.
    apply bind_ok in H. destruct H as (a & Ha & H).
    apply init_article_fields in Ha. destruct Ha as (u & Hu & Ha).
    assert (Hbuilt : built_from_item src entry a).
    { exists ttl, link, u. unfold item_date_text. repeat split; assumption. }
    destruct (lim <=? len (acc ++ [a])).
    + injection H as <-. exists [entry], [a].
      split; [constructor; apply subseq_nil_l |].
      split; [reflexivity |].
      split; [constructor; [exact Hbuilt | constructor] |].
      split; [constructor; [intros [] | constructor] |].
      intros e l [<- | []] Hl. rewrite Hlink in Hl. injection Hl as <-.
      exact Hseen.
    + destruct (IH _ _ _ H) as (chosen & new & Hsub & Hits & Hall & Hnodup & Hfresh).
      exists (entry :: chosen), (a :: new).
      split; [constructor; exact Hsub |].
      split; [rewrite Hits, <- app_assoc; reflexivity |].
      split; [constructor; assumption |].
      split.
      * cbn [map]. constructor; [| exact Hnodup].
        rewrite Hlink. intro Hin. apply in_map_iff in Hin.
        destruct Hin as (e & He & Hin).
        apply (Hfresh e link Hin He). left. reflexivity.
      * intros e l [<- | Hin] Hl.
        -- rewrite Hlink in Hl. injection Hl as <-. exact Hseen.
        -- intro Hbad. apply (Hfresh e l Hin Hl). right. exact Hbad.
Qed.

(** The articles of the RSS feed are made, in document order, of items that
    have a non-empty title and a non-empty link, and no two of them of items
    with the same link text; an item without title or link is passed over. *)
Theorem rss_feed_items
        (tgt : ScrapeTarget) (lim : Z) (feed : NewsFeed) :
  _fetch_cryptopanic_rss get_soup now tgt lim = Ok feed ->
  exists soup chosen,
    get_soup (mk_request (target_url tgt) []
                [("Accept", "application/rss+xml, application/xml")]) = Ok soup /\
    subseq chosen (find_all_item soup) /\
    Forall2 (built_from_item (name tgt)) chosen (items feed) /\
    NoDup (map item_link chosen).
Proof.
  unfold _fetch_cryptopanic_rss. intro H.
  apply bind_ok in H. destruct H as (soup & Hsoup & H).
  apply bind_ok in H. destruct H as (its & Hits & H).
  injection H as <-. cbn [items].
  destruct (rss_pass_chosen _ _ _ _ _ _ Hits)
    as (chosen & new & Hsub & Heq & Hall & Hnodup & _).
  cbn [app] in Heq. subst new.
  exists soup, chosen. repeat split; assumption.
Qed.

Section Fallback.

Variables (base_url src : string) (lim : Z).

Lemma fallback_pass_len (anchors : list Anchor) :
  forall articles seen arts,
    fallback_pass base_url src lim anchors articles seen = Ok arts ->
    len articles < lim ->
    len arts <= lim.
Proof.
  induction anchors as [| anchor rest IH]; intros articles seen arts H Hlen.
  - injection H as <-. lia.
  - cbn [fallback_pass] in H.
    destruct (a_href anchor) as [href |]; [| eapply IH; eassumption].
    destruct (_ || _ || _); [eapply IH; eassumption |].
    destruct (negb _); [eapply IH; eassumption |].
    destruct (set_contains _ _); [eapply IH; eassumption |].
    apply bind_ok in H. destruct H as (a & Ha & H).
    destruct (Z.leb_spec lim (len (articles ++ [a]))) as [Hfull | Hroom].
    + injection H as <-. rewrite len_app_one. lia.
    + eapply IH; eassumption.
Qed.

(** What the fallback loop appends, anchor by anchor. *)
Lemma fallback_pass_chosen (anchors : list Anchor) :
  forall articles seen arts,
    fallback_pass base_url src lim anchors articles seen = Ok arts ->
    exists chosen new,
      subseq chosen anchors /\
      arts = articles ++ new /\
      Forall2 (built_from_headline base_url src) chosen new /\
      NoDup (map (resolved base_url) chosen) /\
      forall anchor, In anchor chosen -> ~ In (resolved base_url anchor) seen.
Proof.
  induction anchors as [| anchor rest IH]; intros articles seen arts H.
  - injection H as <-. exists [], [].
    rewrite app_nil_r. repeat split; try constructor. intros ? [].
  - cbn [fallback_pass] in H.
    assert (Hskip :
      fallback_pass base_url src lim rest articles seen = Ok arts ->
      exists chosen new,
        subseq chosen (anchor :: rest) /\ arts = articles ++ new /\
        Forall2 (built_from_headline base_url src) chosen new /\
        NoDup (map (resolved base_url) chosen) /\
        forall x, In x chosen -> ~ In (resolved base_url x) seen).
    { intro Hrest. destruct (IH _ _ _ Hrest) as (chosen & new & Hsub & Hrest').
      exists chosen, new. split; [constructor; exact Hsub | exact Hrest']. }
    destruct (a_href anchor) as [href |] eqn:Hhref; [| exact (Hskip H)].
    destruct (String.eqb href "" || String.eqb (a_text anchor) ""
              || (len_str (a_text anchor) <? 5)) eqn:Hcond; [exact (Hskip H) |].
    apply orb_false_elim in Hcond. destruct Hcond as [Hcond Hlen].
    apply orb_false_elim in Hcond. destruct Hcond as [Hne_h _].
    apply nonempty_str in Hne_h. apply Z.ltb_ge in Hlen.
    destruct (startswith (urljoin base_url href) "http") eqn:Hhttp;
      cbn [negb] in H; [| exact (Hskip H)].
    destruct (set_contains seen (PStr (urljoin base_url href))) eqn:Hseen;
      [exact (Hskip H) |].
    apply set_contains_str in Hseen.
    apply bind_ok in H. destruct H as (a & Ha & H).
    apply init_article_fields in Ha. destruct Ha as (u & Hu & Ha).
    assert (Hres : resolved base_url anchor = urljoin base_url href)
      by (unfold resolved; rewrite Hhref; reflexivity).
    assert (Hbuilt : built_from_headline base_url src anchor a).
    { exists href, u. repeat split; assumption. }
    destruct (lim <=? len (articles ++ [a])).
    + injection H as <-. exists [anchor], [a].
      split; [constructor; apply subseq_nil_l |].
      split; [reflexivity |].
      split; [constructor; [exact Hbuilt | constructor] |].
      split; [constructor; [intros [] | constructor] |].
      intros x [<- | []]. rewrite Hres. exact Hseen.
    + destruct (IH _ _ _ H) as (chosen & new & Hsub & Harts & Hall & Hnodup & Hfresh).
      exists (anchor :: chosen), (a :: new).
      split; [constructor; exact Hsub |].
      split; [rewrite Harts, <- app_assoc; reflexivity |].
      split; [constructor; assumption |].
      split.
      * cbn [map]. constructor; [| exact Hnodup].
        intro Hin. apply in_map_iff in Hin. destruct Hin as (x & Hx & Hin).
        apply (Hfresh x Hin). left. rewrite Hx, Hres. reflexivity.
      * intros x [<- | Hin].
        -- rewrite Hres. exact Hseen.
        -- intro Hbad. apply (Hfresh x Hin). right. exact Hbad.
Qed.

(** The structured loop records the text of the URL of every article it
    appends. *)
Lemma structured_pass_seen (elements : list ArticleTag) :
  forall articles seen arts seen',
    (forall a, In a articles -> In (url_text (url a)) seen) ->
    structured_pass base_url src lim elements articles seen = Ok (arts, seen') ->
    forall a, In a arts -> In (url_text (url a)) seen'.
Proof.
  induction elements as [| element rest IH]; intros articles seen arts seen' Hinv H.
  - injection H as <- <-. exact Hinv.
  - cbn [structured_pass] in H.
    apply bind_ok in H. destruct H as (it & _ & H).
    destruct it as [a |].
    + destruct (negb (set_contains seen (PUrl (url a)))).
      * assert (Hinv' : forall x, In x (articles ++ [a]) ->
                                  In (url_text (url x))
                                     (set_add (url_text (url a)) seen)).
        { intros x Hx. apply in_app_or in Hx. destruct Hx as [Hx | [<- | []]].
          - right. apply Hinv. exact Hx.
          - left. reflexivity. }
        destruct (lim <=? len (articles ++ [a])).
        -- injection H as <- <-. exact Hinv'.
        -- eapply IH; eassumption.
      * destruct (lim <=? len articles).
        -- injection H as <- <-. exact Hinv.
        -- eapply IH; eassumption.
    + destruct (lim <=? len articles).
      * injection H as <- <-. exact Hinv.
      * eapply IH; eassumption.
Qed.

(** When the structured tier leaves room, the fallback tier adds, in
    document order, articles made of headline anchors that pass the filter;
    they have no summary and no date, their resolved URLs are pairwise
    distinct, and none is the text of the URL of a structured article. *)
Theorem fallback_articles_fresh
        (soup : Soup) (tier1 arts : list NewsArticle) (seen : list string) :
  structured_pass base_url src lim (find_all_article soup) [] [] = Ok (tier1, seen) ->
  len tier1 < lim ->
  _extract_articles base_url src lim soup = Ok arts ->
  exists chosen tier2,
    subseq chosen (select_headlines soup) /\
    arts = tier1 ++ tier2 /\
    Forall2 (built_from_headline base_url src) chosen tier2 /\
    NoDup (map (resolved base_url) chosen) /\
    forall anchor a,
      In anchor chosen -> In a tier1 ->
      resolved base_url anchor <> url_text (url a).
Proof.
  intros Htier1 Hroom H. unfold _extract_articles in H.
  rewrite Htier1 in H. cbn [bind] in H.
  apply Z.ltb_lt in Hroom. rewrite Hroom in H. apply Z.ltb_lt in Hroom.
  apply bind_ok in H. destruct H as (all & Hall & H). injection H as <-.
  pose proof (fallback_pass_len _ _ _ _ Hall Hroom) as Hlen.
  destruct (fallback_pass_chosen _ _ _ _ Hall)
    as (chosen & tier2 & Hsub & Heq & Hbuilt & Hnodup & Hfresh).
  assert (Hslice : slice_to all lim = all).
  { unfold slice_to. destruct (Z.leb_spec 0 lim) as [_ | Hneg];
      [| unfold len in Hroom; lia].
    apply firstn_all2. unfold len in Hlen. lia. }
  rewrite Hslice. exists chosen, tier2.
  repeat (split; [assumption |]).
  intros anchor a Hanchor Ha Heq'. apply (Hfresh anchor Hanchor).
  rewrite Heq'.
  eapply structured_pass_seen; [| exact Htier1 | exact Ha].
  intros x [].
Qed.

(** With a cap of zero or less the HTML extraction returns no article. *)
Theorem extract_nothing_for_nonpositive_cap
        (soup : Soup) (arts : list NewsArticle) :
  lim <= 0 ->
  _extract_articles base_url src lim soup = Ok arts ->
  arts = [].
Proof.
  intros Hlim H. unfold _extract_articles in H.
  apply bind_ok in H. destruct H as ([found seen] & Hfound & H).
  assert (Hshort : (List.length found <= 1)%nat).
  { destruct (find_all_article soup) as [| element rest].
    - injection Hfound as <- _. simpl. lia.
    - cbn [structured_pass] in Hfound.
      apply bind_ok in Hfound. destruct Hfound as (it & _ & Hfound).
      destruct it as [a |].
      + destruct (negb _).
        * destruct (Z.leb_spec lim (len ([] ++ [a]))) as [_ | Hbad];
            [| unfold len in Hbad; simpl in Hbad; lia].
          injection Hfound as <- _. simpl. lia.
        * destruct (Z.leb_spec lim (len (@nil NewsArticle))) as [_ | Hbad];
            [| unfold len in Hbad; simpl in Hbad; lia].
          injection Hfound as <- _. simpl. lia.
      + destruct (Z.leb_spec lim (len (@nil NewsArticle))) as [_ | Hbad];
          [| unfold len in Hbad; simpl in Hbad; lia].
        injection Hfound as <- _. simpl. lia. }
  destruct (Z.ltb_spec (len found) lim) as [Hbad | _];
    [unfold len in Hbad; lia |].
  cbn [bind] in H. injection H as <-.
  unfold slice_to, len.
  destruct (Z.leb_spec 0 lim).
  - replace lim with 0 by lia. reflexivity.
  - replace (Z.to_nat (Z.of_nat (List.length found) + lim)) with 0%nat by lia.
    reflexivity.
Qed.

End Fallback.

End NewsMore.

(* ===================================================================== *)
(** * The shared client *)
(* ===================================================================== *)

Section ClientFacts.

Variable settings : PoolSettings.

Lemma module_ok_loaded : module_ok settings module_loaded.
Proof.
  unfold module_ok, module_loaded. cbn [_client constructed closed List.length].
  split; [intros c [] |]. split; [intros c Hc; discriminate Hc |].
  split; [intros c o Hc; discriminate Hc | reflexivity].
Qed.

Lemma module_ok_call (m : ClientModule) (c : client_call) :
  module_ok settings m -> module_ok settings (call settings m c).
Proof.
  intro Hok. pose proof Hok as (Hclosed & Hopen & Holder & Hcount).
  destruct c; cbn [call].
  - unfold get_http_client, create_if_none. cbn [snd].
    destruct (_client m) as [o |] eqn:Ho; [exact Hok |].
    unfold module_ok. cbn [_client constructed closed].
    split; [| split; [| split]].
    + intros c Hin. destruct (Hclosed c Hin) as [Hlt Heq].
      split; [clear - Hlt; lia | exact Heq].
    + intros c Heq. injection Heq as <-. cbn [serial].
      split; [apply Nat.lt_succ_diag_r | reflexivity].
    + intros c o Heq Hin. injection Heq as <-. cbn [serial].
      apply Hclosed. exact Hin.
    + clear - Hcount. lia.
  - unfold shutdown_http_client.
    destruct (_client m) as [o |] eqn:Ho.
    + unfold module_ok. cbn [_client constructed closed List.length].
      split; [| split; [| split]].
      * intros c [<- | Hin]; [apply Hopen; reflexivity | apply Hclosed; exact Hin].
      * intros c Hc. discriminate Hc.
      * intros c o' Hc. discriminate Hc.
      * clear - Hcount. lia.
    + exact Hok.
Qed.

Lemma module_ok_run (calls : list client_call) :
  forall m, module_ok settings m ->
            module_ok settings (fold_left (call settings) calls m).
Proof.
  induction calls as [| c rest IH]; intros m Hm; [exact Hm |].
  cbn [fold_left]. apply IH. apply module_ok_call. exact Hm.
Qed.

(** After any run of [get_http_client] and [shutdown_http_client] calls,
    [get_http_client] hands out a client that was built from the settings
    (timeout, pool limits, User-Agent), that has not been closed, and that is
    the only client open: every other client constructed so far is closed. *)
Theorem get_http_client_after_any_run (calls : list client_call) :
  exists c m,
    get_http_client settings (run_calls settings calls) = (Some c, m) /\
    c = construct settings (serial c) /\
    ~ In c (closed m) /\
    constructed m = S (List.length (closed m)).
Proof.
  pose proof (module_ok_run (calls ++ [CallGet]) _ module_ok_loaded) as Hok.
  rewrite fold_left_app in Hok. cbn [fold_left call] in Hok.
  fold (run_calls settings calls) in Hok.
  unfold get_http_client in *. cbn [snd] in Hok.
  set (m := create_if_none settings (run_calls settings calls)) in *.
  destruct Hok as (Hclosed & Hopen & Holder & Hcount).
  assert (Hsome : exists c, _client m = Some c).
  { subst m. unfold create_if_none.
    destruct (_client (run_calls settings calls)) as [c |] eqn:Hc.
    - exists c. exact Hc.
    - eexists. reflexivity. }
  destruct Hsome as (c & Hc). exists c, m.
  rewrite Hc in Hcount. rewrite Hc.
  split; [reflexivity |].
  split; [apply Hopen; exact Hc |].
  split; [| clear - Hcount; lia].
  intro Hin. pose proof (Holder c c Hc Hin) as Hlt. clear - Hlt. lia.
Qed.

Lemma create_if_none_has_client (m : ClientModule) :
  _client (create_if_none settings m) <> None.
Proof.
  unfold create_if_none. destruct (_client m) eqn:Hc.
  - rewrite Hc. discriminate.
  - cbn [_client]. discriminate.
Qed.

Lemma create_if_none_keeps (m : ClientModule) :
  _client m <> None -> create_if_none settings m = m.
Proof.
  unfold create_if_none. destruct (_client m); [reflexivity | contradiction].
Qed.

Lemma Forall_update {A} (P : A -> Prop) (l : list A) (i : nat) (x : A) :
  Forall P l -> P x -> Forall P (update l i x).
Proof.
  intros Hl Hx. revert i.
  induction Hl as [| y rest Hy Hrest IH]; intro i; [constructor |].
  destruct i; cbn [update]; constructor; auto.
Qed.

Lemma update_length {A} (l : list A) (i : nat) (x : A) :
  List.length (update l i x) = List.length l.
Proof.
  revert i. induction l as [| y rest IH]; intro i; [reflexivity |].
  destruct i; cbn [update List.length]; [reflexivity | rewrite IH; reflexivity].
Qed.

Lemma step_keeps_ok (m0 : ClientModule) (f f' : Flight) (i : nat) :
  flight_ok settings m0 f -> step settings f i = Some f' ->
  flight_ok settings m0 f'.
Proof.
  intros [Hmod Hplaces] Hstep. unfold step in Hstep.
  destruct (nth_error (calls_in_flight f) i) as [p |] eqn:Hp;
    [| discriminate Hstep].
  destruct p.
  - (* the outer test *)
    injection Hstep as <-. split; [exact Hmod |]. cbn [module_state calls_in_flight].
    apply Forall_update; [exact Hplaces |].
    destruct (_client (module_state f)) eqn:Hc; cbn [place_ok];
      [rewrite Hc; discriminate | exact I].
  - (* taking the lock *)
    destruct (lock_taken f); [discriminate Hstep |].
    injection Hstep as <-. split; [exact Hmod |]. cbn [module_state calls_in_flight].
    apply Forall_update; [exact Hplaces | exact I].
  - (* the inner test and the construction *)
    injection Hstep as <-. cbn [flight_ok module_state calls_in_flight].
    split.
    + right. destruct Hmod as [-> | ->]; [reflexivity |].
      apply create_if_none_keeps, create_if_none_has_client.
    + apply Forall_update.
      * eapply Forall_impl; [| exact Hplaces].
        intros p Hp'. destruct p; cbn [place_ok] in *; auto;
          apply create_if_none_has_client.
      * cbn [place_ok]. apply create_if_none_has_client.
  - (* leaving the lock *)
    injection Hstep as <-. split; [exact Hmod |]. cbn [module_state calls_in_flight].
    apply Forall_update; [exact Hplaces |].
    rewrite Forall_forall in Hplaces.
    apply (Hplaces AtUnlock). eapply nth_error_In. exact Hp.
  - (* the return *)
    injection Hstep as <-. split; [exact Hmod |]. cbn [module_state calls_in_flight].
    apply Forall_update; [exact Hplaces |].
    rewrite Forall_forall in Hplaces.
    assert (Hsome : _client (module_state f) <> None)
      by (apply (Hplaces AtReturn); eapply nth_error_In; exact Hp).
    cbn [place_ok]. unfold get_http_client. cbn [fst].
    destruct Hmod as [Hm | Hm]; rewrite Hm in *; [| reflexivity].
    rewrite create_if_none_keeps; [reflexivity | exact Hsome].
  - discriminate Hstep.
Qed.

Lemma schedule_keeps_ok (m0 : ClientModule) (schedule : list nat) :
  forall f, flight_ok settings m0 f ->
            flight_ok settings m0 (run_schedule settings f schedule).
Proof.
  induction schedule as [| i rest IH]; intros f Hf; [exact Hf |].
  cbn [run_schedule]. apply IH.
  destruct (step settings f i) as [f' |] eqn:Hstep; [| exact Hf].
  eapply step_keeps_ok; eassumption.
Qed.

Lemma take_off_ok (m0 : ClientModule) (n : nat) :
  flight_ok settings m0 (take_off m0 n).
Proof.
  split; [left; reflexivity |]. cbn [take_off calls_in_flight].
  apply Forall_forall. intros p Hp. apply repeat_spec in Hp. subst p. exact I.
Qed.

(** However [n] simultaneous calls of [get_http_client] take turns, at most
    one client is constructed, and every call that has returned holds the
    client one uninterrupted call would have returned, never [None]. *)
Theorem concurrent_get_constructs_once
        (m0 : ClientModule) (n : nat) (schedule : list nat) :
  let f := run_schedule settings (take_off m0 n) schedule in
  (constructed (module_state f) <= S (constructed m0))%nat /\
  forall i r,
    nth_error (calls_in_flight f) i = Some (Returned r) ->
    r = fst (get_http_client settings m0) /\ r <> None.
Proof.
  intro f.
  destruct (schedule_keeps_ok m0 schedule _ (take_off_ok m0 n)) as [Hmod Hplaces].
  fold f in Hmod, Hplaces. split.
  - destruct Hmod as [-> | ->]; [apply Nat.le_succ_diag_r |].
    unfold create_if_none. destruct (_client m0);
      [apply Nat.le_succ_diag_r | apply Nat.le_refl].
  - intros i r Hi. rewrite Forall_forall in Hplaces.
    pose proof (Hplaces _ (nth_error_In _ _ Hi)) as Hr. cbn [place_ok] in Hr.
    split; [exact Hr |]. rewrite Hr. unfold get_http_client. cbn [fst].
    apply create_if_none_has_client.
Qed.

Lemma filter_update_count {A} (g : A -> bool) (l : list A) (i : nat) (old x : A) :
  nth_error l i = Some old ->
  (List.length (filter g (update l i x)) + Nat.b2n (g old)
   = List.length (filter g l) + Nat.b2n (g x))%nat.
Proof.
  revert i. induction l as [| y rest IH]; intros i Hi.
  - destruct i; discriminate Hi.
  - destruct i as [| j].
    + injection Hi as ->. cbn [update filter].
      destruct (g old), (g x); cbn [List.length Nat.b2n]; lia.
    + cbn [nth_error] in Hi. specialize (IH j Hi). cbn [update filter].
      destruct (g y); cbn [List.length]; lia.
Qed.

Lemma step_keeps_lock (f f' : Flight) (i : nat) :
  holders f = Nat.b2n (lock_taken f) ->
  step settings f i = Some f' ->
  holders f' = Nat.b2n (lock_taken f').
Proof.
  unfold holders, step. intros Hinv Hstep.
  destruct (nth_error (calls_in_flight f) i) as [p |] eqn:Hp;
    [| discriminate Hstep].
  destruct p; try discriminate Hstep;
    try (destruct (lock_taken f) eqn:Hlock; [discriminate Hstep |]);
    injection Hstep as <-; cbn [calls_in_flight lock_taken];
    match goal with
    | |- context [update _ _ ?x] =>
        pose proof (filter_update_count inside_lock _ _ _ x Hp) as Hcount
    end;
    cbn [inside_lock Nat.b2n] in *;
    try (destruct (_client (module_state f)); cbn [inside_lock Nat.b2n] in * );
    try lia.
  (* leaving the lock: the one holder is this call *)
  all: destruct (lock_taken f); cbn [Nat.b2n] in *; lia.
Qed.

(** However the calls take turns, the number of calls inside the lock is 1
    while the lock is taken and 0 otherwise: no two calls are inside
    [async with _client_lock] together. *)
Theorem lock_admits_one_call
        (m0 : ClientModule) (n : nat) (schedule : list nat) :
  let f := run_schedule settings (take_off m0 n) schedule in
  holders f = Nat.b2n (lock_taken f) /\ (holders f <= 1)%nat.
Proof.
  intro f.
  assert (Hinv : holders f = Nat.b2n (lock_taken f)).
  { subst f.
    assert (Hstart : holders (take_off m0 n) = Nat.b2n (lock_taken (take_off m0 n))).
    { unfold holders, take_off. cbn [calls_in_flight lock_taken Nat.b2n].
      induction n as [| k IH]; [reflexivity | exact IH]. }
    revert Hstart. generalize (take_off m0 n).
    induction schedule as [| i rest IH]; intros f Hf; [exact Hf |].
    cbn [run_schedule]. apply IH.
    destruct (step settings f i) as [f' |] eqn:Hstep; [| exact Hf].
    eapply step_keeps_lock; eassumption. }
  split; [exact Hinv |]. rewrite Hinv. destruct (lock_taken f); cbn; lia.
Qed.

(** Given their turns one after the other, all the calls do return. *)
Lemma calls_return_when_run_in_turn :
  let f := run_schedule settings (take_off module_loaded 2)
                        [0; 0; 0; 0; 0; 1; 1]%nat in
  calls_in_flight f
  = [ Returned (Some (construct settings 0));
      Returned (Some (construct settings 0)) ] /\
  constructed (module_state f) = 1%nat.
Proof. split; reflexivity. Qed.

End ClientFacts.

(* ===================================================================== *)
(** * The news endpoint *)
(* ===================================================================== *)

Lemma configured_limit (tgt : ScrapeTarget) :
  In tgt SCRAPE_TARGETS -> limit tgt = 6.
Proof.
  unfold SCRAPE_TARGETS. intro H.
  repeat (destruct H as [<- | H]; [reflexivity |]). destruct H.
Qed.

(** [GET /news/aggregate] answers 422 exactly when [limit] (6 when the
    parameter is absent) is outside 1..12; otherwise it answers with eleven
    feeds, none of which holds more than min(limit, 6) articles. *)
Theorem news_endpoint_bounds
        {rt : Runtime} (get_soup : Request -> result Soup) (now : Z)
        (limit_param : option Z) :
  let limit := match limit_param with Some n => n | None => 6 end in
  match news_aggregate get_soup now limit_param with
  | Response200 agg =>
      1 <= limit <= 12 /\
      List.length (feeds agg) = 11%nat /\
      Forall (fun feed => len (items feed) <= Z.min limit 6) (feeds agg)
  | Response422 => limit < 1 \/ 12 < limit
  end.
Proof.
  intro limit. unfold news_aggregate. fold limit.
  destruct (Z.leb_spec 1 limit) as [Hlo | Hlo]; cbn [andb]; [| left; exact Hlo].
  destruct (Z.leb_spec limit 12) as [Hhi | Hhi]; [| right; exact Hhi].
  split; [lia |]. unfold fetch_all.
  split; [rewrite fetch_all_over_length; reflexivity |].
  rewrite fetch_all_over_feeds. apply Forall_map. apply Forall_forall.
  intros tgt Htgt. pose proof (configured_limit tgt Htgt) as H6.
  destruct (_fetch_target get_soup now tgt limit) as [feed | e] eqn:Hfetch.
  - rewrite <- H6. eapply fetch_target_capped; [| exact Hfetch]. lia.
  - unfold failed_feed, len. cbn [items List.length]. lia.
Qed.

(* ===================================================================== *)
(** * The further properties on concrete documents *)
(* ===================================================================== *)

Lemma bybit_no_ticker_is_value_error_witness :
  let get_json := fun _ : Request =>
    Ok (JDict [("retCode", JInt 0); ("result", JDict [("list", JList [])])]) in
  _fetch_bybit (rt := ascii_runtime) default_settings get_json "BTC" "USDT"
  = Raise (mk_exn ValueError "Bybit returned no ticker data for BTCUSDT").
Proof.
  intro get_json.
  apply (bybit_no_ticker_is_value_error (rt := ascii_runtime) default_settings
           get_json "BTC" "USDT"
           [("retCode", JInt 0); ("result", JDict [("list", JList [])])]).
  - reflexivity.
  - right. exists [("list", JList [])]. split; [reflexivity |].
    right. left. reflexivity.
Defined.

Lemma bybit_point_fields_witness :
  let pt := mk_point "bybit" "BTCUSDT" (Some (Fixtures.num "63950.55"))
                     (Some (Fixtures.num "2.5"))
                     (Some (Fixtures.num "420000000.0"))
                     (Some MoreFixtures.bybit_ticker) in
  _fetch_bybit (rt := ascii_runtime) default_settings Fixtures.mocked_exchanges
               "BTC" "USDT" = Ok pt /\
  exists payload res d rest,
    Fixtures.mocked_exchanges
      (mk_request "https://api.bybit.com//v5/market/tickers"
                  [("category", "spot"); ("symbol", "BTCUSDT")] [])
      = Ok payload /\
    py_get payload "result" (JDict []) = Ok res /\
    py_get res "list" (JList []) = Ok (JList (JDict d :: rest)) /\
    raw pt = Some d /\
    d <> [] /\
    _to_float (rt := ascii_runtime) (field d "lastPrice") = Ok (price pt) /\
    _to_float (rt := ascii_runtime) (field d "turnover24h") = Ok (volume_24h pt) /\
    match dict_lookup d "price24hPcnt" with
    | None => change_24h pt = None
    | Some raw_pct =>
        exists r, _to_float (rt := ascii_runtime) raw_pct = Ok r /\
                  change_24h pt = option_map (fun x => fmul x (float_lit 100)) r
    end.
Proof.
  intro pt.
  split; [vm_compute; reflexivity |].
  apply (bybit_point_fields (rt := ascii_runtime) default_settings
           Fixtures.mocked_exchanges "BTC" "USDT" pt).
  vm_compute. reflexivity.
Defined.

Lemma slot_depends_on_own_request_witness :
  nth_error (prices (fetch_symbol (rt := ascii_runtime) default_settings
                                  Fixtures.mocked_exchanges 0 "btc" "usdt")) 0
  = nth_error (prices (fetch_symbol (rt := ascii_runtime) default_settings
                                    MoreFixtures.only_binance_up 0 "btc" "usdt")) 0.
Proof.
  apply (slot_depends_on_own_request (rt := ascii_runtime) default_settings
           Fixtures.mocked_exchanges MoreFixtures.only_binance_up 0 "btc" "usdt"
           0%nat
           (mk_request "https://api.binance.com//api/v3/ticker/24hr"
                       [("symbol", "BTCUSDT")] [])).
  - reflexivity.
  - reflexivity.
Defined.

Lemma median_order_independent_witness :
  let a := Some (Fixtures.num "64000.12") in
  let b := Some (Fixtures.num "63950.55") in
  let c := Some (Fixtures.num "0") in
  median_price (Fixtures.snapshot [a; None; b; c])
  = median_price (Fixtures.snapshot [c; a; b; None]).
Proof.
  intros a b c.
  apply median_order_independent.
  - cbn [Fixtures.snapshot prices map].
    apply Permutation_trans
      with (l' := [Fixtures.point a; Fixtures.point b; Fixtures.point c;
                   Fixtures.point None]).
    + apply perm_skip.
      apply (Permutation_cons_append [Fixtures.point b; Fixtures.point c]).
    + apply (Permutation_app_tail
               (l := [Fixtures.point a; Fixtures.point b; Fixtures.point c])
               (l' := [Fixtures.point c; Fixtures.point a; Fixtures.point b])
               [Fixtures.point None]).
      apply Permutation_sym.
      apply (Permutation_cons_append [Fixtures.point a; Fixtures.point b]).
  - repeat constructor; discriminate.
Defined.

Lemma rss_feed_items_witness :
  let tgt := target "CryptoPanic" "https://cryptopanic.com/news/rss/" in
  let get_soup := fun _ : Request => Ok MoreFixtures.rss_doc in
  exists feed soup chosen,
    _fetch_cryptopanic_rss (rt := ascii_runtime) get_soup 0 tgt 6 = Ok feed /\
    map title (items feed) = ["Market sentiment flips"; "Rates decision looms"] /\
    subseq chosen (find_all_item soup) /\
    Forall2 (built_from_item (rt := ascii_runtime) (name tgt)) chosen (items feed) /\
    NoDup (map item_link chosen).
Proof.
  intros tgt get_soup.
  assert (Hrun : exists feed,
             _fetch_cryptopanic_rss (rt := ascii_runtime) get_soup 0 tgt 6 = Ok feed /\
             map title (items feed)
             = ["Market sentiment flips"; "Rates decision looms"]).
  { eexists. split; [vm_compute; reflexivity | reflexivity]. }
  destruct Hrun as (feed & Hfeed & Htitles).
  destruct (rss_feed_items (rt := ascii_runtime) get_soup 0 tgt 6 feed Hfeed)
    as (soup & chosen & _ & Hsub & Hbuilt & Hnodup).
  exists feed, soup, chosen. repeat split; assumption.
Defined.

Lemma fallback_articles_fresh_witness :
  let story := mk_article "Example" "Crypto surges today"
                          (mk_url "https://example.com/story") None None [] in
  let etf := mk_article "Example" "Funds file for spot ETF"
                        (mk_url "https://example.com/etf") None None [] in
  exists chosen tier2,
    _extract_articles (rt := ascii_runtime) "https://example.com/" "Example" 6
                      MoreFixtures.headline_page
      = Ok ([story] ++ tier2) /\
    tier2 = [etf] /\
    subseq chosen (select_headlines MoreFixtures.headline_page) /\
    Forall2 (built_from_headline (rt := ascii_runtime) "https://example.com/" "Example")
            chosen tier2 /\
    NoDup (map (resolved (rt := ascii_runtime) "https://example.com/") chosen).
Proof.
  intros story etf.
  destruct (fallback_articles_fresh (rt := ascii_runtime)
              "https://example.com/" "Example" 6 MoreFixtures.headline_page
              [story] [story; etf] ["https://example.com/story"])
    as (chosen & tier2 & Hsub & Heq & Hbuilt & Hnodup & _).
  - vm_compute. reflexivity.
  - vm_compute. reflexivity.
  - vm_compute. reflexivity.
  - exists chosen, tier2.
    assert (Htier2 : tier2 = [etf]) by (injection Heq as <-; reflexivity).
    split; [rewrite Htier2; vm_compute; reflexivity |].
    repeat split; assumption.
Defined.

Lemma extract_nothing_for_nonpositive_cap_witness :
  _extract_articles (rt := ascii_runtime) "https://example.com/" "Example" 0
                    MoreFixtures.headline_page
  = Ok [].
Proof.
  assert (Hrun : exists arts,
             _extract_articles (rt := ascii_runtime) "https://example.com/"
                               "Example" 0 MoreFixtures.headline_page = Ok arts).
  { eexists. vm_compute. reflexivity. }
  destruct Hrun as (arts & Harts).
  rewrite Harts. f_equal.
  apply (extract_nothing_for_nonpositive_cap (rt := ascii_runtime)
           "https://example.com/" "Example" 0 MoreFixtures.headline_page arts).
  - lia.
  - exact Harts.
Defined.

(* ===================================================================== *)
(** * Order, completeness and isolation *)
(* ===================================================================== *)

Section OrderFacts.

Context {rt : Runtime}.

(** Where a returned CoinCap point comes from: the asset selected for the
    base symbol from the [data] of the answer to the task's one request (a
    search for the base symbol, with the bearer token when a key is set).
    The numbers of the point are that asset's [priceUsd],
    [changePercent24Hr] and [volumeUsd24Hr]; the asset is kept as [raw] and
    the symbol is base and quote joined. *)
Theorem coincap_point_fields
        (self : Settings) (get_json : Request -> result json)
        (base quote : string) (pt : MarketPricePoint) :
  _fetch_coincap self get_json base quote = Ok pt ->
  exists payload data m,
    get_json (mk_request (coincap_base_url self ++ "/assets")%string
                         [("search", base)]
                         (match coincap_api_key self with
                          | Some key =>
                              if String.eqb key "" then []
                              else [("Authorization", ("Bearer " ++ key)%string)]
                          | None => []
                          end))
      = Ok payload /\
    py_get payload "data" (JList []) = Ok data /\
    select_asset base data = Ok (JDict m) /\
    _to_float (field m "priceUsd") = Ok (price pt) /\
    _to_float (field m "changePercent24Hr") = Ok (change_24h pt) /\
    _to_float (field m "volumeUsd24Hr") = Ok (volume_24h pt) /\
    raw pt = Some m /\
    symbol pt = (base ++ quote)%string /\
    source pt = "coincap".
Proof.
  unfold _fetch_coincap. intro H.
  apply bind_ok in H. destruct H as (payload & Hpayload & H).
  apply bind_ok in H. destruct H as (data & Hdata & H).
  apply bind_ok in H. destruct H as (m & Hm & H).
  apply bind_ok in H. destruct H as (p & Hp & H).
  apply bind_ok in H. destruct H as (c & Hc & H).
  apply bind_ok in H. destruct H as (v & Hv & H).
  destruct m as [| b | n | x | s | l | d]; try discriminate Hp.
  cbn in H. injection H as <-.
  exists payload, data, d. repeat split; assumption.
Qed.

Section Extraction.

Variables (base_url src : string) (lim : Z).

Lemma structured_pass_len (elements : list ArticleTag) :
  forall articles seen arts seen',
    structured_pass base_url src lim elements articles seen = Ok (arts, seen') ->
    len articles < lim ->
    len arts <= lim.
Proof.
  induction elements as [| element rest IH]; intros articles seen arts seen' H Hlen.
  - injection H as <- _. lia.
  - cbn [structured_pass] in H.
    apply bind_ok in H. destruct H as (it & _ & H).
    destruct it as [a |].
    + destruct (negb _).
      * destruct (Z.leb_spec lim (len (articles ++ [a]))) as [Hfull | Hroom].
        -- injection H as <- _. rewrite len_app_one. lia.
        -- eapply IH; eassumption.
      * destruct (Z.leb_spec lim (len articles)); [lia |].
        eapply IH; eassumption.
    + destruct (Z.leb_spec lim (len articles)); [lia |].
      eapply IH; eassumption.
Qed.

Lemma structured_pass_chosen (elements : list ArticleTag) :
  forall articles seen arts seen',
    structured_pass base_url src lim elements articles seen = Ok (arts, seen') ->
    exists chosen new,
      subseq chosen elements /\
      arts = articles ++ new /\
      Forall2 (fun element a =>
                 _build_article_from_element element base_url src = Ok (Some a))
              chosen new.
Proof.
  induction elements as [| element rest IH]; intros articles seen arts seen' H.
  - injection H as <- _. exists [], []. rewrite app_nil_r.
    repeat split; constructor.
  - cbn [structured_pass] in H.
    apply bind_ok in H. destruct H as (it & Hit & H).
    assert (Hskip : forall seen0,
      (if lim <=? len articles then Ok (articles, seen0)
       else structured_pass base_url src lim rest articles seen0) = Ok (arts, seen') ->
      exists chosen new,
        subseq chosen (element :: rest) /\ arts = articles ++ new /\
        Forall2 (fun e a => _build_article_from_element e base_url src = Ok (Some a))
                chosen new).
    { intros seen0 Hrest. destruct (lim <=? len articles).
      - injection Hrest as <- _. exists [], []. rewrite app_nil_r.
        repeat split; [apply subseq_nil_l | constructor].
      - destruct (IH _ _ _ _ Hrest) as (chosen & new & Hsub & Hrest').
        exists chosen, new. split; [constructor; exact Hsub | exact Hrest']. }
    destruct it as [a |]; [| exact (Hskip _ H)].
    destruct (negb _); [| exact (Hskip _ H)].
    destruct (lim <=? len (articles ++ [a])).
    + injection H as <- _. exists [element], [a].
      split; [constructor; apply subseq_nil_l |].
      split; [reflexivity |]. constructor; [exact Hit | constructor].
    + destruct (IH _ _ _ _ H) as (chosen & new & Hsub & Harts & Hall).
      exists (element :: chosen), (a :: new).
      split; [constructor; exact Hsub |].
      split; [rewrite Harts, <- app_assoc; reflexivity |].
      constructor; assumption.
Qed.

(** For a cap of at least 1 the articles of a scraped page come in document
    order and within the cap: first the articles built from [<article>]
    elements, in the order of the elements, then those built from headline
    anchors, in the order of the anchors. *)
Theorem extract_in_document_order (soup : Soup) (arts : list NewsArticle) :
  1 <= lim ->
  _extract_articles base_url src lim soup = Ok arts ->
  exists elements anchors tier1 tier2,
    subseq elements (find_all_article soup) /\
    subseq anchors (select_headlines soup) /\
    Forall2 (fun element a =>
               _build_article_from_element element base_url src = Ok (Some a))
            elements tier1 /\
    Forall2 (built_from_headline base_url src) anchors tier2 /\
    arts = tier1 ++ tier2 /\
    len arts <= lim.
Proof.
  intros Hlim H. unfold _extract_articles in H.
  apply bind_ok in H. destruct H as ([tier1 seen] & Htier1 & H).
  apply bind_ok in H. destruct H as (all & Hall & H). injection H as <-.
  assert (Hlen1 : len tier1 <= lim).
  { eapply structured_pass_len; [exact Htier1 |]. unfold len. simpl. lia. }
  destruct (structured_pass_chosen _ _ _ _ _ Htier1)
    as (elements & new & Hsub & Heq & Hbuilt).
  cbn [app] in Heq. subst new.
  assert (Hslice : forall l : list NewsArticle, len l <= lim -> slice_to l lim = l).
  { intros l Hl. unfold slice_to. destruct (Z.leb_spec 0 lim); [| lia].
    apply firstn_all2. unfold len in Hl. lia. }
  destruct (Z.ltb_spec (len tier1) lim) as [Hroom | Hfull].
  - pose proof (fallback_pass_len _ _ _ _ _ _ _ Hall Hroom) as Hlen.
    destruct (fallback_pass_chosen _ _ _ _ _ _ _ Hall)
      as (anchors & tier2 & Hsub2 & Heq2 & Hbuilt2 & _).
    rewrite (Hslice _ Hlen).
    exists elements, anchors, tier1, tier2.
    repeat (split; [assumption |]). exact Hlen.
  - injection Hall as <-. rewrite (Hslice _ Hlen1).
    exists elements, [], tier1, [].
    split; [exact Hsub |]. split; [apply subseq_nil_l |].
    split; [exact Hbuilt |]. split; [constructor |].
    split; [rewrite app_nil_r; reflexivity | exact Hlen1].
Qed.

(** The RSS loop loses nothing below the cap: when it returns fewer
    articles than the cap, every item with a non-empty title and link is
    represented by an article made of its link. *)
Lemma rss_pass_complete (entries : list ItemTag) :
  forall acc seen its,
    rss_pass src lim entries acc seen = Ok its ->
    len its < lim ->
    forall entry ttl link,
      In entry entries ->
      item_title entry = Some ttl -> ttl <> "" ->
      item_link entry = Some link -> link <> "" ->
      In link seen \/
      exists a, In a its /\ validate_http_url link = Some (url a).
Proof.
  induction entries as [| e rest IH];
    intros acc seen its H Hlen entry ttl link Hin Httl Hne_t Hlink Hne_l;
    [destruct Hin |].
  cbn [rss_pass] in H.
  destruct (item_title e) as [ttl' |] eqn:Httl'.
  2:{ destruct Hin as [<- | Hin]; [congruence |]. eapply IH; eassumption. }
  destruct (item_link e) as [link' |] eqn:Hlink'.
  2:{ destruct Hin as [<- | Hin]; [congruence |]. eapply IH; eassumption. }
  destruct (String.eqb ttl' "" || String.eqb link' ""
            || set_contains seen (PStr link')) eqn:Hcond.
  - destruct Hin as [<- | Hin]; [| eapply IH; eassumption].
    rewrite Httl in Httl'. injection Httl' as <-.
    rewrite Hlink in Hlink'. injection Hlink' as <-.
    apply orb_true_iff in Hcond. destruct Hcond as [Hcond | Hseen].
    + apply orb_true_iff in Hcond.
      destruct Hcond as [Hc | Hc]; apply String.eqb_eq in Hc; contradiction.
    + left. destruct (in_dec string_dec link seen) as [Hyes | Hno];
        [exact Hyes |].
      apply set_contains_str in Hno. congruence.
  - apply bind_ok in H. destruct H as (a & Ha & H).
    apply init_article_fields in Ha. destruct Ha as (u & Hu & Ha).
    destruct (Z.leb_spec lim (len (acc ++ [a]))) as [Hfull | Hroom].
    + injection H as <-. lia.
    + destruct (rss_pass_chosen _ _ _ _ _ _ H) as (_ & new & _ & Hits & _).
      assert (Ha_in : In a its).
      { rewrite Hits. apply in_or_app. left. apply in_or_app. right.
        left. reflexivity. }
      assert (Hurl : url a = u) by (rewrite Ha; reflexivity).
      destruct Hin as [<- | Hin].
      * rewrite Hlink in Hlink'. injection Hlink' as <-.
        right. exists a. split; [exact Ha_in |]. rewrite Hurl. exact Hu.
      * destruct (IH _ _ _ H Hlen entry ttl link Hin Httl Hne_t Hlink Hne_l)
          as [[<- | Hseen] | Hex].
        -- right. exists a. split; [exact Ha_in |]. rewrite Hurl. exact Hu.
        -- left. exact Hseen.
        -- right. exact Hex.
Qed.

End Extraction.

Variable get_soup : Request -> result Soup.
Variable now : Z.

(** An RSS feed that stays below its cap has lost no item: each item of
    the document with a non-empty title and link has an article of its link
    in the feed. *)
Theorem rss_feed_complete
        (tgt : ScrapeTarget) (lim : Z) (feed : NewsFeed) (soup : Soup) :
  get_soup (mk_request (target_url tgt) []
              [("Accept", "application/rss+xml, application/xml")]) = Ok soup ->
  _fetch_cryptopanic_rss get_soup now tgt lim = Ok feed ->
  len (items feed) < lim ->
  forall entry ttl link,
    In entry (find_all_item soup) ->
    item_title entry = Some ttl -> ttl <> "" ->
    item_link entry = Some link -> link <> "" ->
    exists a, In a (items feed) /\ validate_http_url link = Some (url a).
Proof.
  intros Hsoup H Hlen entry ttl link Hin Httl Hne_t Hlink Hne_l.
  unfold _fetch_cryptopanic_rss in H. rewrite Hsoup in H. cbn [bind] in H.
  apply bind_ok in H. destruct H as (its & Hits & H). injection H as <-.
  cbn [items] in *.
  destruct (rss_pass_complete _ _ _ _ _ _ Hits Hlen entry ttl link
                              Hin Httl Hne_t Hlink Hne_l) as [[] | Hex].
  exact Hex.
Qed.

(** The feed of a target depends on the answer to the target's own request
    only: clients that answer it alike produce the same outcome for the
    target, whatever they answer for the others. *)
Theorem feed_depends_on_own_request
        (get_soup' : Request -> result Soup) (tgt : ScrapeTarget) (cap : Z) :
  get_soup (target_request tgt) = get_soup' (target_request tgt) ->
  _fetch_target get_soup now tgt cap = _fetch_target get_soup' now tgt cap.
Proof.
  unfold target_request, _fetch_target, _fetch_cryptopanic_rss, _scrape_generic.
  destruct (String.eqb (name tgt) "CryptoPanic"); intros ->; reflexivity.
Qed.

End OrderFacts.

Lemma coincap_point_fields_witness :
  exists pt payload data m,
    _fetch_coincap (rt := ascii_runtime) default_settings
                   Fixtures.mocked_exchanges "BTC" "USDT" = Ok pt /\
    Fixtures.mocked_exchanges
      (mk_request "https://api.coincap.io/v2/assets" [("search", "BTC")] [])
      = Ok payload /\
    py_get payload "data" (JList []) = Ok data /\
    select_asset (rt := ascii_runtime) "BTC" data = Ok (JDict m) /\
    _to_float (rt := ascii_runtime) (field m "priceUsd") = Ok (price pt) /\
    price pt = Some (Fixtures.num "63975.10") /\
    raw pt = Some m.
Proof.
  assert (Hrun : exists pt,
             _fetch_coincap (rt := ascii_runtime) default_settings
                            Fixtures.mocked_exchanges "BTC" "USDT" = Ok pt /\
             price pt = Some (Fixtures.num "63975.10")).
  { eexists. split; [vm_compute; reflexivity | reflexivity]. }
  destruct Hrun as (pt & Hpt & Hprice).
  destruct (coincap_point_fields (rt := ascii_runtime) default_settings
              Fixtures.mocked_exchanges "BTC" "USDT" pt Hpt)
    as (payload & data & m & Hpayload & Hdata & Hm & Hp & _ & _ & Hraw & _).
  exists pt, payload, data, m. repeat split; assumption.
Defined.

Lemma extract_in_document_order_witness :
  exists arts elements anchors tier1 tier2,
    _extract_articles (rt := ascii_runtime) "https://example.com/" "Example" 6
                      MoreFixtures.headline_page = Ok arts /\
    map title arts = ["Crypto surges today"; "Funds file for spot ETF"] /\
    subseq elements (find_all_article MoreFixtures.headline_page) /\
    subseq anchors (select_headlines MoreFixtures.headline_page) /\
    Forall2 (built_from_headline (rt := ascii_runtime) "https://example.com/" "Example")
            anchors tier2 /\
    arts = tier1 ++ tier2 /\
    len arts <= 6.
Proof.
  assert (Hrun : exists arts,
             _extract_articles (rt := ascii_runtime) "https://example.com/"
                               "Example" 6 MoreFixtures.headline_page = Ok arts /\
             map title arts = ["Crypto surges today"; "Funds file for spot ETF"]).
  { eexists. split; [vm_compute; reflexivity | reflexivity]. }
  destruct Hrun as (arts & Harts & Htitles).
  destruct (extract_in_document_order (rt := ascii_runtime)
              "https://example.com/" "Example" 6 MoreFixtures.headline_page arts)
    as (elements & anchors & tier1 & tier2 & Hsub1 & Hsub2 & _ & Hb2 & Heq & Hlen).
  - lia.
  - exact Harts.
  - exists arts, elements, anchors, tier1, tier2. repeat split; assumption.
Defined.

Lemma rss_feed_complete_witness :
  let tgt := target "CryptoPanic" "https://cryptopanic.com/news/rss/" in
  let get_soup := fun _ : Request => Ok MoreFixtures.rss_doc in
  exists feed a,
    _fetch_cryptopanic_rss (rt := ascii_runtime) get_soup 0 tgt 6 = Ok feed /\
    In a (items feed) /\
    validate_http_url (Runtime := ascii_runtime)
                      "https://cryptopanic.com/news/rates" = Some (url a).
Proof.
  intros tgt get_soup.
  assert (Hrun : exists feed,
             _fetch_cryptopanic_rss (rt := ascii_runtime) get_soup 0 tgt 6 = Ok feed /\
             len (items feed) < 6).
  { eexists. split; [vm_compute; reflexivity | reflexivity]. }
  destruct Hrun as (feed & Hfeed & Hlen).
  destruct (rss_feed_complete (rt := ascii_runtime) get_soup 0 tgt 6 feed
              MoreFixtures.rss_doc eq_refl Hfeed Hlen
              (mk_item (Some "Rates decision looms")
                       (Some "https://cryptopanic.com/news/rates") None None None)
              "Rates decision looms" "https://cryptopanic.com/news/rates")
    as (a & Ha & Hu).
  - unfold MoreFixtures.rss_doc. cbn [find_all_item].
    do 3 right. left. reflexivity.
  - reflexivity.
  - discriminate.
  - reflexivity.
  - discriminate.
  - exists feed, a. repeat split; assumption.
Defined.

Lemma feed_depends_on_own_request_witness :
  let coindesk := target "CoinDesk" "https://www.coindesk.com/" in
  let all_up := fun _ : Request => Ok MoreFixtures.headline_page in
  let only_coindesk_up := fun r : Request =>
    if String.eqb (req_url r) "https://www.coindesk.com/"
    then Ok MoreFixtures.headline_page
    else raise HTTPError "Connection refused" in
  _fetch_target (rt := ascii_runtime) all_up 0 coindesk 6
  = _fetch_target (rt := ascii_runtime) only_coindesk_up 0 coindesk 6.
Proof.
  intros coindesk all_up only_coindesk_up.
  apply (feed_depends_on_own_request (rt := ascii_runtime) all_up 0
           only_coindesk_up coindesk 6).
  reflexivity.
Defined.
